(** * Theme engine of the Hub4com GUI (ui/theme/theme.py)

    Shallow embedding of the style resolver ([AppStyles]), the semantic
    colour resolver ([ThemeManager.get_semantic_color]), the icon renderer
    ([IconManager]) and the widget factory ([ThemeManager.create_button],
    [ThemeManager.create_icon_button]), followed by the properties of the
    theming specification that concern them.

    Conventions.
    - A Python [str] is a [string]; the theme only manipulates ASCII text.
    - A Python [dict] is a [gmap]; [d.get(k, default)] is [dict_get] and the
      subscript [d[k]] is [dict_getitem], which can raise [KeyError].
    - A Python [float] that holds a display scale is an exact rational [Q]
      (the scale factors of interest, 1, 1.25, 1.5, 1.75, 2, are dyadic and
      their products with icon sizes are exact in binary floating point).
    - A style sheet, which the source writes as CSS text in an f-string, is
      the list of its rule blocks in textual order; [+=] on the text is
      list concatenation.
    - What the code obtains from the toolkit or from modules that are not
      part of this file (the SVG loader, the running application and its
      screen, the icon template registry) is a parameter. *)

From Stdlib Require Import ZArith QArith String Ascii List.
From stdpp Require Import base option list gmap strings pretty.

Local Open Scope string_scope.
Local Open Scope Z_scope.
Local Open Scope list_scope.

(** ** Python runtime *)

Module Py.

(** Exceptions that the modelled code can raise.  [Unmodelled] stands for
    the outcome of a replacement field that uses a conversion, a format
    specification or an attribute or index access ([{color!r}],
    [{color:>8}], [{color[0]}]): Python evaluates those, this model does
    not. *)
Inductive exn : Type :=
| KeyError (key : string)
| IndexError
| ValueError
| Unmodelled.

Inductive result (A : Type) : Type :=
| Ok (a : A)
| Raise (e : exn).
Arguments Ok {A} a.
Arguments Raise {A} e.

Definition bind {A B} (r : result A) (k : A -> result B) : result B :=
  match r with
  | Ok a => k a
  | Raise e => Raise e
  end.

Definition fails {A} (r : result A) : Prop := exists e, r = Raise e.
Definition returns {A} (r : result A) : Prop := exists a, r = Ok a.

(** Both return, or both raise the same exception. *)
Definition same_outcome {A B} (r1 : result A) (r2 : result B) : Prop :=
  match r1, r2 with
  | Ok _, Ok _ => True
  | Raise e1, Raise e2 => e1 = e2
  | _, _ => False
  end.

(** [d.get(key, default)] *)
Definition dict_get {V} (d : gmap string V) (key : string) (dflt : V) : V :=
  default dflt (d !! key).

(** [d[key]] *)
Definition dict_getitem {V} (d : gmap string V) (key : string) : result V :=
  match d !! key with
  | Some v => Ok v
  | None => Raise (KeyError key)
  end.

(** [getattr(cls, name, None)] on a class whose attributes are [attrs]. *)
Definition getattr {V} (attrs : gmap string V) (name : string) : option V :=
  attrs !! name.

(** Truth value of an optional string: [None] and [""] are false. *)
Definition truthy (o : option string) : bool :=
  match o with
  | Some (String _ _) => true
  | _ => false
  end.

(** [c.upper()] on an ASCII character. *)
Definition upper_ascii (c : ascii) : ascii :=
  let n := N_of_ascii c in
  if ((97 <=? n) && (n <=? 122))%N then ascii_of_N (n - 32) else c.

(** [s.upper()] (ASCII letters; other bytes are left as they are). *)
Fixpoint str_upper (s : string) : string :=
  match s with
  | EmptyString => EmptyString
  | String c rest => String (upper_ascii c) (str_upper rest)
  end.

Definition is_digit (c : ascii) : bool :=
  let n := N_of_ascii c in ((48 <=? n) && (n <=? 57))%N.

(** Characters that start a conversion, a format specification, an
    accessor or a nested field inside a replacement field. *)
Definition is_field_special (c : ascii) : bool :=
  bool_decide (c = "!"%char) || bool_decide (c = ":"%char)
  || bool_decide (c = "."%char) || bool_decide (c = "["%char)
  || bool_decide (c = "{"%char).

Fixpoint forallb_string (p : ascii -> bool) (s : string) : bool :=
  match s with
  | EmptyString => true
  | String c rest => p c && forallb_string p rest
  end.

(** Value of the replacement field [{field}] in
    [template.format(color=color)]: there are no positional arguments, so
    an empty or numeric field name is out of range, and [color] is the
    only keyword. *)
Definition format_field (field color : string) : result string :=
  if negb (forallb_string (fun c => negb (is_field_special c)) field)
  then Raise Unmodelled
  else if bool_decide (field = "color") then Ok color
  else if forallb_string is_digit field
       then (if (String.length field <=? 18)%nat then Raise IndexError
             else Raise Unmodelled)
       else Raise (KeyError field).

(** Left-to-right scan of the template.  [field] is [Some f] while the
    scan is inside a replacement field whose text so far is [f]. *)
Fixpoint format_scan (s : string) (field : option string) (color : string)
  : result string :=
  match s, field with
  | EmptyString, None => Ok EmptyString
  | EmptyString, Some _ => Raise ValueError
  | String c rest, Some f =>
      if bool_decide (c = "}"%char)
      then bind (format_field f color) (fun v =>
           bind (format_scan rest None color) (fun out =>
           Ok (v +:+ out)))
      else format_scan rest (Some (f +:+ String c EmptyString)) color
  | String c rest, None =>
      if bool_decide (c = "{"%char) then
        match rest with
        | String "{"%char rest' =>
            bind (format_scan rest' None color) (fun out => Ok (String c out))
        | _ => format_scan rest (Some EmptyString) color
        end
      else if bool_decide (c = "}"%char) then
        match rest with
        | String "}"%char rest' =>
            bind (format_scan rest' None color) (fun out => Ok (String c out))
        | _ => Raise ValueError
        end
      else bind (format_scan rest None color) (fun out => Ok (String c out))
  end.

(** [template.format(color=color)] *)
Definition str_format (template color : string) : result string :=
  format_scan template None color.

(** [int(x)] on a float: truncation toward zero. *)
Definition int_of_float (x : Q) : Z := Z.quot (Qnum x) (Z.pos (Qden x)).

(** [round(x)]: to the nearest integer, ties to the even one. *)
Definition round (x : Q) : Z :=
  let n := Qnum x in
  let d := Z.pos (Qden x) in
  let f := Z.div n d in
  let r2 := 2 * (n - f * d) in
  if r2 <? d then f
  else if d <? r2 then f + 1
  else if Z.even f then f else f + 1.

(** Value of the replacement field [{field}] in
    [template.format(keyword=value)], for any single keyword argument. *)
Definition format_field_kw (keyword field value : string) : result string :=
  if negb (forallb_string (fun c => negb (is_field_special c)) field)
  then Raise Unmodelled
  else if bool_decide (field = keyword) then Ok value
  else if forallb_string is_digit field
       then (if (String.length field <=? 18)%nat then Raise IndexError
             else Raise Unmodelled)
       else Raise (KeyError field).

Fixpoint format_scan_kw (keyword s : string) (field : option string)
    (value : string) : result string :=
  match s, field with
  | EmptyString, None => Ok EmptyString
  | EmptyString, Some _ => Raise ValueError
  | String c rest, Some f =>
      if bool_decide (c = "}"%char)
      then bind (format_field_kw keyword f value) (fun v =>
           bind (format_scan_kw keyword rest None value) (fun out =>
           Ok (v +:+ out)))
      else format_scan_kw keyword rest (Some (f +:+ String c EmptyString)) value
  | String c rest, None =>
      if bool_decide (c = "{"%char) then
        match rest with
        | String "{"%char rest' =>
            bind (format_scan_kw keyword rest' None value)
                 (fun out => Ok (String c out))
        | _ => format_scan_kw keyword rest (Some EmptyString) value
        end
      else if bool_decide (c = "}"%char) then
        match rest with
        | String "}"%char rest' =>
            bind (format_scan_kw keyword rest' None value)
                 (fun out => Ok (String c out))
        | _ => Raise ValueError
        end
      else bind (format_scan_kw keyword rest None value)
                (fun out => Ok (String c out))
  end.

(** [template.format(keyword=value)] *)
Definition str_format_kw (keyword template value : string) : result string :=
  format_scan_kw keyword template None value.

(** [a or b] on an optional integer: [None] and [0] are false. *)
Definition or_int (a : option Z) (b : Z) : Z :=
  match a with
  | Some v => if v =? 0 then b else v
  | None => b
  end.

(** Truth value of an optional integer. *)
Definition truthy_int (a : option Z) : bool :=
  match a with
  | Some v => negb (v =? 0)
  | None => false
  end.

End Py.

(** [result] is an error monad; [x ← r; k] is stdpp's notation for it. *)
#[export] Instance result_ret : MRet Py.result := @Py.Ok.
#[export] Instance result_bind : MBind Py.result :=
  fun A B k r => Py.bind r k.

(** ** Palette and metrics tables (class-level constants) *)

Module AppColors.
(* background *)
Definition BACKGROUND_LIGHT := "#f0f0f0".
Definition BACKGROUND_WHITE := "#ffffff".
Definition BACKGROUND_DISABLED := "#f4f7fc".
(* border *)
Definition BORDER_DEFAULT := "#a0a0a0".
Definition BORDER_FOCUS := "#0078d7".
Definition BORDER_PRESSED := "#005a9e".
Definition BORDER_DISABLED := "#d0d0d0".
Definition BORDER_LIGHT := "#e3e3e3".
(* button *)
Definition BUTTON_DEFAULT := "#f0f0f0".
Definition BUTTON_HOVER := "#e5f1fb".
Definition BUTTON_PRESSED := "#cce4f7".
(* text *)
Definition TEXT_DEFAULT := "#000000".
Definition TEXT_DISABLED := "#6d6d6d".
Definition TEXT_WHITE := "#ffffff".
(* icon *)
Definition ICON_DEFAULT := "#000000".
Definition ICON_HOVER := "#0078d7".
Definition ICON_PRESSED := "#005a9e".
Definition ICON_DISABLED := "#6d6d6d".
(* accent *)
Definition ACCENT_BLUE := "#0078d7".
Definition HOT_TRACKING := "#0066cc".
(* semantic *)
Definition SUCCESS_PRIMARY := "#107c10".
Definition SUCCESS_BACKGROUND := "#dff6dd".
Definition SUCCESS_BORDER := "#0e5a0e".
Definition WARNING_PRIMARY := "#ffb900".
Definition WARNING_BACKGROUND := "#fff4ce".
Definition WARNING_BORDER := "#d39400".
Definition ERROR_PRIMARY := "#e81123".
Definition ERROR_BACKGROUND := "#fde7e9".
Definition ERROR_BORDER := "#b4161c".
Definition INFO_PRIMARY := "#0078d7".
Definition INFO_BACKGROUND := "#e5f1fb".
Definition INFO_BORDER := "#005a9e".
(* accent palette and pair highlighting, used by [get_accent_color] *)
Definition ACCENT_GREEN := "#107c10".
Definition ACCENT_ORANGE := "#d83b01".
Definition ACCENT_RED := "#e81123".
Definition ACCENT_PURPLE := "#5c2d91".
Definition ACCENT_MAGENTA := "#b4009e".
Definition ACCENT_YELLOW := "#ffb900".
Definition ACCENT_TEAL := "#008272".
Definition PAIR_HIGHLIGHT := "#f0f8ff".
Definition PAIR_INFO := "#fffff8".
(* selection *)
Definition SELECTION_BG := "#3399ff".
Definition SELECTION_TEXT := "#ffffff".
End AppColors.

Module AppFonts.
Definition DEFAULT_FAMILY := "Segoe UI".
Definition DEFAULT_SIZE := "9pt".
Definition SMALL_SIZE := "8pt".
Definition BOLD_WEIGHT := "bold".
Definition ITALIC_STYLE := "italic".
(** [QFont(family, pointSize)] *)
Record QFont := { family : string; pointSize : Z }.
Definition CONSOLE : QFont := {| family := "Consolas"; pointSize := 9 |}.
Definition CONSOLE_LARGE : QFont := {| family := "Consolas"; pointSize := 10 |}.
End AppFonts.

Module AppDimensions.
Definition BUTTON_WIDTH_STANDARD := 75.
Definition BUTTON_HEIGHT_STANDARD := 23.
Definition BUTTON_HEIGHT_SMALL := 21.
Definition BUTTON_HEIGHT_MEDIUM := 23.
Definition BUTTON_HEIGHT_LARGE := 28.
Definition CHECKBOX_SIZE_STANDARD := 18.
Definition ICON_SIZE_SMALL := 16.
Definition ICON_SIZE_MEDIUM := 20.
Definition ICON_SIZE_LARGE := 24.
Definition ICON_SIZE_XLARGE := 32.
Definition SPACING_SMALL := 4.
Definition PADDING_SMALL := "3px".
Definition PADDING_MEDIUM := "5px".
Definition PADDING_LARGE := "7px".
Definition PADDING_BUTTON_STANDARD := "3px 8px".
Definition PADDING_BUTTON_LARGE := "5px 12px".
Definition PADDING_BUTTON_COMPACT := "2px 6px".
Definition HEIGHT_SEPARATOR := 1.
Definition BORDER_WIDTH_STANDARD := 1.
Definition BORDER_WIDTH_THICK := 2.
Definition BORDER_RADIUS_STANDARD := 0.
Definition BORDER_RADIUS_MODERN := 2.
Definition MARGIN_DIALOG : Z * Z * Z * Z := (11, 11, 11, 11).
Definition MARGIN_CONTROL : Z * Z * Z * Z := (7, 7, 7, 7).
Definition MARGIN_SMALL : Z * Z * Z * Z := (4, 4, 4, 4).
Definition MARGIN_NONE : Z * Z * Z * Z := (0, 0, 0, 0).
Definition WIDTH_LABEL_PORT := 55.
Definition MIN_DIALOG_WIDTH := 500.
Definition MIN_DIALOG_HEIGHT := 300.
End AppDimensions.

(** ** The toolkit: what the theme uses of Qt *)

Module Qt.

Record QSize := { width : Z; height : Z }.

(** A pixmap is its size and what was painted on the transparent
    background: [Some doc] when a renderer drew the document [doc] on it,
    [None] when it only holds the transparent fill. *)
Record QPixmap := { pm_size : QSize; pm_image : option string }.

(** [QPixmap(size)] is the null pixmap, of size 0 x 0, unless both
    dimensions are positive. *)
Definition isNull (p : QPixmap) : bool :=
  negb ((0 <? width (pm_size p)) && (0 <? height (pm_size p))).

Definition new_QPixmap (size : QSize) : QPixmap :=
  if (0 <? width size) && (0 <? height size)
  then {| pm_size := size; pm_image := None |}
  else {| pm_size := {| width := 0; height := 0 |}; pm_image := None |}.

(** [QPainter(pixmap); renderer.render(painter); painter.end()] with a
    renderer whose [load] returned [valid]: a painter cannot begin on a
    null pixmap and an invalid renderer draws nothing; neither raises. *)
Definition render (valid : bool) (doc : string) (p : QPixmap) : QPixmap :=
  if valid && negb (isNull p)
  then {| pm_size := pm_size p; pm_image := Some doc |}
  else p.

Inductive Mode := Normal | Active | Selected | Disabled.
Inductive State := Off | On.

#[export] Instance Mode_eq_dec : EqDecision Mode.
Proof. solve_decision. Defined.

Record IconEntry := { ie_pixmap : QPixmap; ie_mode : Mode; ie_state : State }.

(** An icon is the list of the pixmaps added to it, oldest first. *)
Definition QIcon := list IconEntry.

(** [icon.addPixmap(pixmap, mode, state)]: a null pixmap is ignored. *)
Definition addPixmap (icon : QIcon) (p : QPixmap) (m : Mode) (s : State) : QIcon :=
  if isNull p then icon
  else icon ++ [{| ie_pixmap := p; ie_mode := m; ie_state := s |}].

(** The running application as [get_scaled_size] sees it:
    [QApplication.instance()] may be absent, [primaryScreen()] may be
    absent, and a screen has a device pixel ratio. *)
Record QScreen := { devicePixelRatio : Q }.
Record QApplication := { primaryScreen : option QScreen }.

(** *** Style sheets *)

Inductive PseudoState := hover | pressed | focus | disabled.

#[export] Instance PseudoState_eq_dec : EqDecision PseudoState.
Proof. solve_decision. Defined.

Record Selector := { sel_widget : string; sel_pseudo : option PseudoState }.

(** One block [selector { property: value; ... }]. *)
Record Rule := { selector : Selector; declarations : list (string * string) }.

Definition StyleSheet := list Rule.

Definition rule (w : string) (p : option PseudoState)
    (ds : list (string * string)) : Rule :=
  {| selector := {| sel_widget := w; sel_pseudo := p |}; declarations := ds |}.

(** *** Push buttons *)

(** Handle of a Python callable connected to a signal. *)
Definition Callable := nat.

Record QPushButton := {
  text : string;
  styleSheet : StyleSheet;
  enabled : bool;
  down : bool;
  clicked : list Callable;
  icon : QIcon;
  iconSize : option QSize;
  toolTip : string
}.

(** [QPushButton(text)] *)
Definition new_QPushButton (t : string) : QPushButton :=
  {| text := t; styleSheet := []; enabled := true; down := false;
     clicked := []; icon := []; iconSize := None; toolTip := "" |}.

Definition setStyleSheet (b : QPushButton) (s : StyleSheet) : QPushButton :=
  {| text := text b; styleSheet := s; enabled := enabled b; down := down b;
     clicked := clicked b; icon := icon b; iconSize := iconSize b;
     toolTip := toolTip b |}.

(** [setEnabled(e)]: disabling a button that is held down releases it. *)
Definition setEnabled (b : QPushButton) (e : bool) : QPushButton :=
  {| text := text b; styleSheet := styleSheet b; enabled := e;
     down := down b && e;
     clicked := clicked b; icon := icon b; iconSize := iconSize b;
     toolTip := toolTip b |}.

Definition connect_clicked (b : QPushButton) (c : Callable) : QPushButton :=
  {| text := text b; styleSheet := styleSheet b; enabled := enabled b;
     down := down b; clicked := clicked b ++ [c]; icon := icon b;
     iconSize := iconSize b; toolTip := toolTip b |}.

Definition setIcon (b : QPushButton) (i : QIcon) : QPushButton :=
  {| text := text b; styleSheet := styleSheet b; enabled := enabled b;
     down := down b; clicked := clicked b; icon := i;
     iconSize := iconSize b; toolTip := toolTip b |}.

Definition setIconSize (b : QPushButton) (s : QSize) : QPushButton :=
  {| text := text b; styleSheet := styleSheet b; enabled := enabled b;
     down := down b; clicked := clicked b; icon := icon b;
     iconSize := Some s; toolTip := toolTip b |}.

Definition setToolTip (b : QPushButton) (t : string) : QPushButton :=
  {| text := text b; styleSheet := styleSheet b; enabled := enabled b;
     down := down b; clicked := clicked b; icon := icon b;
     iconSize := iconSize b; toolTip := t |}.

(** *** How a style sheet is applied to a button

    This is the toolkit's documented conflict resolution: a rule applies
    when its selector names the widget class and its pseudo-state, if it
    has one, is active; a selector with a pseudo-state is more specific
    than one without; among the applicable declarations of a property
    the most specific wins, and of equally specific ones the last. *)

(** What the user is doing with the widget. *)
Record Interaction := { underMouse : bool; hasFocus : bool }.

(** Active pseudo-states of a button.  [hover] is reported for enabled
    widgets only. *)
Definition pseudo_states (b : QPushButton) (i : Interaction) : list PseudoState :=
  (if enabled b && underMouse i then [hover] else [])
  ++ (if down b then [pressed] else [])
  ++ (if hasFocus i then [focus] else [])
  ++ (if enabled b then [] else [disabled]).

Definition applies (widget : string) (ps : list PseudoState) (r : Rule) : bool :=
  bool_decide (sel_widget (selector r) = widget)
  && match sel_pseudo (selector r) with
     | None => true
     | Some p => bool_decide (p ∈ ps)
     end.

Definition specificity (r : Rule) : nat :=
  match sel_pseudo (selector r) with
  | None => 0%nat
  | Some _ => 1%nat
  end.

(** Last declaration of [prop] in a block. *)
Definition declared (prop : string) (r : Rule) : option string :=
  last (omap (fun d => if bool_decide (d.1 = prop) then Some d.2 else None)
             (declarations r)).

Definition cascade_step (widget : string) (ps : list PseudoState)
    (prop : string) (best : option (nat * string)) (r : Rule)
  : option (nat * string) :=
  if applies widget ps r then
    match declared prop r, best with
    | Some v, Some (n, _) =>
        if (n <=? specificity r)%nat then Some (specificity r, v) else best
    | Some v, None => Some (specificity r, v)
    | None, _ => best
    end
  else best.

Definition cascade (sheet : StyleSheet) (widget : string)
    (ps : list PseudoState) (prop : string) : option string :=
  snd <$> fold_left (cascade_step widget ps prop) sheet None.

(** Value of [prop] that the button [b] is drawn with. *)
Definition effective (b : QPushButton) (i : Interaction) (prop : string)
  : option string :=
  cascade (styleSheet b) "QPushButton" (pseudo_states b i) prop.

(** *** User input on a button

    A disabled widget receives neither mouse presses nor focus. *)
Inductive UserEvent := MouseEnter | MouseLeave | MousePress | MouseRelease
                     | FocusIn | FocusOut.

Definition handle (bi : QPushButton * Interaction) (e : UserEvent)
  : QPushButton * Interaction :=
  let (b, i) := bi in
  let set_down d :=
    {| text := text b; styleSheet := styleSheet b; enabled := enabled b;
       down := d; clicked := clicked b; icon := icon b;
       iconSize := iconSize b; toolTip := toolTip b |} in
  match e with
  | MouseEnter => (b, {| underMouse := true; hasFocus := hasFocus i |})
  | MouseLeave => (b, {| underMouse := false; hasFocus := hasFocus i |})
  | MousePress => if enabled b then (set_down true, i) else (b, i)
  | MouseRelease => (set_down false, i)
  | FocusIn =>
      if enabled b then (b, {| underMouse := underMouse i; hasFocus := true |})
      else (b, i)
  | FocusOut => (b, {| underMouse := underMouse i; hasFocus := false |})
  end.

Definition idle : Interaction := {| underMouse := false; hasFocus := false |}.


(** *** Other widgets *)

Record QLabel := {
  lb_text : string;
  lb_styleSheet : StyleSheet;
  lb_fixedWidth : option Z
}.

(** [QLabel(text)] *)
Definition new_QLabel (t : string) : QLabel :=
  {| lb_text := t; lb_styleSheet := []; lb_fixedWidth := None |}.

Definition label_setStyleSheet (l : QLabel) (s : StyleSheet) : QLabel :=
  {| lb_text := lb_text l; lb_styleSheet := s; lb_fixedWidth := lb_fixedWidth l |}.

Definition label_setFixedWidth (l : QLabel) (w : Z) : QLabel :=
  {| lb_text := lb_text l; lb_styleSheet := lb_styleSheet l;
     lb_fixedWidth := Some w |}.

Inductive Shape := NoFrame | HLine | VLine.
Inductive Shadow := Plain | Raised | Sunken.

Record QFrame := {
  fr_parent : option nat;
  fr_shape : Shape;
  fr_shadow : Shadow;
  fr_styleSheet : StyleSheet
}.

(** [QFrame(parent)] *)
Definition new_QFrame (parent : option nat) : QFrame :=
  {| fr_parent := parent; fr_shape := NoFrame; fr_shadow := Plain;
     fr_styleSheet := [] |}.

Definition setFrameShape (f : QFrame) (s : Shape) : QFrame :=
  {| fr_parent := fr_parent f; fr_shape := s; fr_shadow := fr_shadow f;
     fr_styleSheet := fr_styleSheet f |}.

Definition setFrameShadow (f : QFrame) (s : Shadow) : QFrame :=
  {| fr_parent := fr_parent f; fr_shape := fr_shape f; fr_shadow := s;
     fr_styleSheet := fr_styleSheet f |}.

Definition frame_setStyleSheet (f : QFrame) (s : StyleSheet) : QFrame :=
  {| fr_parent := fr_parent f; fr_shape := fr_shape f; fr_shadow := fr_shadow f;
     fr_styleSheet := s |}.

(** A text edit: its style sheet and the font given with [setFont], if any. *)
Record QTextEdit := {
  te_styleSheet : StyleSheet;
  te_font : option AppFonts.QFont
}.

Definition new_QTextEdit : QTextEdit :=
  {| te_styleSheet := []; te_font := None |}.

Definition textedit_setStyleSheet (t : QTextEdit) (s : StyleSheet) : QTextEdit :=
  {| te_styleSheet := s; te_font := te_font t |}.

Definition setFont (t : QTextEdit) (f : AppFonts.QFont) : QTextEdit :=
  {| te_styleSheet := te_styleSheet t; te_font := Some f |}.

(** A dialog: its title and the size passed to [setMinimumSize]. *)
Record QDialog := {
  dlg_windowTitle : string;
  dlg_minimumSize : option QSize
}.

Definition new_QDialog : QDialog :=
  {| dlg_windowTitle := ""; dlg_minimumSize := None |}.

Definition setWindowTitle (d : QDialog) (t : string) : QDialog :=
  {| dlg_windowTitle := t; dlg_minimumSize := dlg_minimumSize d |}.

Definition setMinimumSize (d : QDialog) (w h : Z) : QDialog :=
  {| dlg_windowTitle := dlg_windowTitle d;
     dlg_minimumSize := Some {| width := w; height := h |} |}.

(** An object handed to [set_widget_margins]: whether it has the method
    [setContentsMargins], and its contents margins. *)
Record MarginHolder := {
  has_setContentsMargins : bool;
  contentsMargins : Z * Z * Z * Z
}.

Definition setContentsMargins (w : MarginHolder) (m : Z * Z * Z * Z)
  : MarginHolder :=
  {| has_setContentsMargins := has_setContentsMargins w; contentsMargins := m |}.

(** [QColor(name)]: the colour named by a string. *)
Record QColor := { color_name : string }.

Definition hex_digit (c : ascii) : option Z :=
  let n := Z.of_N (N_of_ascii c) in
  if (48 <=? n) && (n <=? 57) then Some (n - 48)
  else if (97 <=? n) && (n <=? 102) then Some (n - 87)
  else if (65 <=? n) && (n <=? 70) then Some (n - 55)
  else None.

(** Red, green and blue components of a colour written [#rrggbb]; [None]
    for a name that is not of that form. *)
Definition rgb (c : QColor) : option (Z * Z * Z) :=
  match color_name c with
  | String "#" (String r1 (String r2 (String g1 (String g2
      (String b1 (String b2 EmptyString)))))) =>
      r1 ← hex_digit r1; r2 ← hex_digit r2;
      g1 ← hex_digit g1; g2 ← hex_digit g2;
      b1 ← hex_digit b1; b2 ← hex_digit b2;
      Some (16 * r1 + r2, 16 * g1 + g2, 16 * b1 + b2)
  | _ => None
  end.

End Qt.

(** ** Semantic colour resolver

    [ThemeManager.get_semantic_color]; it comes before [AppStyles] because
    [AppStyles.port_type_indicator] imports it. *)

Module ThemeManagerColors.
Import Py AppColors.

Definition color_map : gmap string (gmap string string) :=
  {[ "success" := {[ "primary" := SUCCESS_PRIMARY;
                     "background" := SUCCESS_BACKGROUND;
                     "border" := SUCCESS_BORDER ]};
     "warning" := {[ "primary" := WARNING_PRIMARY;
                     "background" := WARNING_BACKGROUND;
                     "border" := WARNING_BORDER ]};
     "error" := {[ "primary" := ERROR_PRIMARY;
                   "background" := ERROR_BACKGROUND;
                   "border" := ERROR_BORDER ]};
     "info" := {[ "primary" := INFO_PRIMARY;
                  "background" := INFO_BACKGROUND;
                  "border" := INFO_BORDER ]} ]}.

(** [color_map.get(semantic_type, color_map["info"]).get(element,
    AppColors.INFO_PRIMARY)] *)
Definition get_semantic_color (semantic_type element : string) : result string :=
  info ← dict_getitem color_map "info";
  mret (dict_get (dict_get color_map semantic_type info) element INFO_PRIMARY).

End ThemeManagerColors.

(** ** Style resolver *)

Module AppStyles.
Import Py Qt AppColors AppFonts AppDimensions.

(** [f"{n}px"] and [f"{n}px solid {colour}"] *)
Definition px (n : Z) : string := pretty n +:+ "px".
Definition solid (n : Z) (colour : string) : string :=
  pretty n +:+ "px solid " +:+ colour.

Definition button (style_variant : string) : StyleSheet :=
  let base_style := [
    rule "QPushButton" None [
      ("background-color", BUTTON_DEFAULT);
      ("color", TEXT_DEFAULT);
      ("padding", PADDING_BUTTON_STANDARD);
      ("border", solid BORDER_WIDTH_STANDARD BORDER_DEFAULT);
      ("font-family", DEFAULT_FAMILY);
      ("font-size", DEFAULT_SIZE);
      ("min-width", px BUTTON_WIDTH_STANDARD);
      ("min-height", px BUTTON_HEIGHT_STANDARD);
      ("border-radius", px BORDER_RADIUS_STANDARD) ];
    rule "QPushButton" (Some hover) [
      ("background-color", BUTTON_HOVER);
      ("border", solid BORDER_WIDTH_STANDARD BORDER_FOCUS) ];
    rule "QPushButton" (Some pressed) [
      ("background-color", BUTTON_PRESSED);
      ("border", solid BORDER_WIDTH_STANDARD BORDER_PRESSED) ];
    rule "QPushButton" (Some focus) [
      ("border", solid BORDER_WIDTH_THICK BORDER_FOCUS);
      ("outline", "none") ];
    rule "QPushButton" (Some disabled) [
      ("background-color", BACKGROUND_DISABLED);
      ("color", TEXT_DISABLED);
      ("border", solid BORDER_WIDTH_STANDARD BORDER_DISABLED) ] ] in
  if decide (style_variant = "primary") then
    base_style ++ [
      rule "QPushButton" None [
        ("background-color", ACCENT_BLUE);
        ("color", TEXT_WHITE);
        ("border", solid BORDER_WIDTH_STANDARD ACCENT_BLUE) ];
      rule "QPushButton" (Some hover) [
        ("background-color", HOT_TRACKING);
        ("border", solid BORDER_WIDTH_STANDARD HOT_TRACKING) ];
      rule "QPushButton" (Some pressed) [
        ("background-color", BORDER_PRESSED);
        ("border", solid BORDER_WIDTH_STANDARD BORDER_PRESSED) ] ]
  else if decide (style_variant = "success") then
    base_style ++ [
      rule "QPushButton" None [
        ("background-color", SUCCESS_PRIMARY);
        ("color", TEXT_WHITE);
        ("border", solid BORDER_WIDTH_STANDARD SUCCESS_BORDER) ];
      rule "QPushButton" (Some hover) [
        ("background-color", SUCCESS_BORDER);
        ("border", solid BORDER_WIDTH_STANDARD SUCCESS_BORDER) ] ]
  else if decide (style_variant = "danger") then
    base_style ++ [
      rule "QPushButton" None [
        ("background-color", ERROR_PRIMARY);
        ("color", TEXT_WHITE);
        ("border", solid BORDER_WIDTH_STANDARD ERROR_BORDER) ];
      rule "QPushButton" (Some hover) [
        ("background-color", ERROR_BORDER);
        ("border", solid BORDER_WIDTH_STANDARD ERROR_BORDER) ] ]
  else base_style.

Definition button_large : StyleSheet := [
  rule "QPushButton" None [
    ("background-color", BUTTON_DEFAULT);
    ("color", TEXT_DEFAULT);
    ("padding", PADDING_BUTTON_LARGE);
    ("border", solid BORDER_WIDTH_STANDARD BORDER_DEFAULT);
    ("font-family", DEFAULT_FAMILY);
    ("font-size", DEFAULT_SIZE);
    ("min-width", px (BUTTON_WIDTH_STANDARD + 20));
    ("min-height", px BUTTON_HEIGHT_LARGE);
    ("border-radius", px BORDER_RADIUS_STANDARD) ];
  rule "QPushButton" (Some hover) [
    ("background-color", BUTTON_HOVER);
    ("border", solid BORDER_WIDTH_STANDARD BORDER_FOCUS) ];
  rule "QPushButton" (Some pressed) [
    ("background-color", BUTTON_PRESSED);
    ("border", solid BORDER_WIDTH_STANDARD BORDER_PRESSED) ];
  rule "QPushButton" (Some focus) [
    ("border", solid BORDER_WIDTH_THICK BORDER_FOCUS);
    ("outline", "none") ];
  rule "QPushButton" (Some disabled) [
    ("background-color", BACKGROUND_DISABLED);
    ("color", TEXT_DISABLED);
    ("border", solid BORDER_WIDTH_STANDARD BORDER_DISABLED) ] ].

Definition button_compact : StyleSheet := [
  rule "QPushButton" None [
    ("background-color", BUTTON_DEFAULT);
    ("color", TEXT_DEFAULT);
    ("padding", PADDING_BUTTON_COMPACT);
    ("font-size", SMALL_SIZE);
    ("min-height", px BUTTON_HEIGHT_SMALL);
    ("border-radius", px BORDER_RADIUS_STANDARD) ];
  rule "QPushButton" (Some hover) [
    ("background-color", BUTTON_HOVER);
    ("border", solid BORDER_WIDTH_STANDARD BORDER_FOCUS) ];
  rule "QPushButton" (Some pressed) [
    ("background-color", BUTTON_PRESSED);
    ("border", solid BORDER_WIDTH_STANDARD BORDER_PRESSED) ];
  rule "QPushButton" (Some focus) [
    ("border", solid BORDER_WIDTH_THICK BORDER_FOCUS);
    ("outline", "none") ];
  rule "QPushButton" (Some disabled) [
    ("background-color", BACKGROUND_DISABLED);
    ("color", TEXT_DISABLED);
    ("border", solid BORDER_WIDTH_STANDARD BORDER_DISABLED) ] ].

Definition icon_button : StyleSheet := [
  rule "QPushButton" None [
    ("background-color", "transparent");
    ("border", pretty BORDER_WIDTH_STANDARD +:+ "px solid transparent");
    ("padding", PADDING_SMALL);
    ("color", TEXT_DEFAULT);
    ("min-width", px (ICON_SIZE_MEDIUM + 8));
    ("min-height", px (ICON_SIZE_MEDIUM + 8));
    ("border-radius", px BORDER_RADIUS_MODERN) ];
  rule "QPushButton" (Some hover) [
    ("background-color", INFO_BACKGROUND);
    ("border", solid BORDER_WIDTH_STANDARD BORDER_LIGHT) ];
  rule "QPushButton" (Some pressed) [
    ("background-color", BUTTON_PRESSED);
    ("border", solid BORDER_WIDTH_STANDARD BORDER_FOCUS) ];
  rule "QPushButton" (Some focus) [
    ("border", solid BORDER_WIDTH_STANDARD BORDER_FOCUS);
    ("outline", "none") ];
  rule "QPushButton" (Some disabled) [
    ("color", ICON_DISABLED);
    ("background-color", "transparent");
    ("border", pretty BORDER_WIDTH_STANDARD +:+ "px solid transparent") ] ].

Definition type_colors : gmap string (string * string * string) :=
  {[ "success" := (SUCCESS_BACKGROUND, SUCCESS_BORDER, SUCCESS_PRIMARY);
     "warning" := (WARNING_BACKGROUND, WARNING_BORDER, WARNING_PRIMARY);
     "error" := (ERROR_BACKGROUND, ERROR_BORDER, ERROR_PRIMARY);
     "info" := (INFO_BACKGROUND, INFO_BORDER, INFO_PRIMARY) ]}.

Definition notification (notification_type : string) : result StyleSheet :=
  info ← dict_getitem type_colors "info";
  let '(bg_color, border_color, text_color) :=
    dict_get type_colors notification_type info in
  mret [
    rule "QLabel" None [
      ("background-color", bg_color);
      ("color", text_color);
      ("border", solid BORDER_WIDTH_STANDARD border_color);
      ("border-radius", px BORDER_RADIUS_MODERN);
      ("padding", PADDING_MEDIUM);
      ("font-family", DEFAULT_FAMILY);
      ("font-size", DEFAULT_SIZE) ] ].

Definition separator (orientation : string) : StyleSheet :=
  if decide (orientation = "horizontal") then [
    rule "QFrame" None [
      ("color", BORDER_LIGHT);
      ("background-color", BORDER_LIGHT);
      ("max-height", px HEIGHT_SEPARATOR) ] ]
  else [
    rule "QFrame" None [
      ("color", BORDER_DEFAULT);
      ("background-color", BORDER_DEFAULT);
      ("max-width", px BORDER_WIDTH_STANDARD);
      ("margin", PADDING_SMALL +:+ " " +:+ PADDING_MEDIUM) ] ].

Definition port_type_indicator (style_type : string) : result StyleSheet :=
  bg_color ← ThemeManagerColors.get_semantic_color style_type "background";
  border_color ← ThemeManagerColors.get_semantic_color style_type "border";
  text_color ← ThemeManagerColors.get_semantic_color style_type "primary";
  mret [
    rule "QLabel" None [
      ("color", text_color);
      ("font-style", ITALIC_STYLE);
      ("font-family", DEFAULT_FAMILY);
      ("font-size", SMALL_SIZE);
      ("padding", PADDING_SMALL +:+ " " +:+ PADDING_MEDIUM);
      ("background-color", bg_color);
      ("border", solid BORDER_WIDTH_STANDARD border_color);
      ("border-radius", px BORDER_RADIUS_MODERN);
      ("margin-top", px SPACING_SMALL) ] ].


Definition label : StyleSheet := [
  rule "QLabel" None [
    ("color", TEXT_DEFAULT);
    ("font-family", DEFAULT_FAMILY);
    ("font-size", DEFAULT_SIZE) ] ].

Definition label_status : StyleSheet := [
  rule "QLabel" None [
    ("color", TEXT_DEFAULT);
    ("padding", PADDING_SMALL +:+ " " +:+ PADDING_LARGE);
    ("background-color", BACKGROUND_LIGHT);
    ("border", solid BORDER_WIDTH_STANDARD BORDER_DEFAULT);
    ("font-family", DEFAULT_FAMILY);
    ("font-size", DEFAULT_SIZE);
    ("min-height", px BUTTON_HEIGHT_MEDIUM);
    ("border-radius", px BORDER_RADIUS_STANDARD) ] ].

Definition textedit : StyleSheet := [
  rule "QTextEdit" None [
    ("border", solid BORDER_WIDTH_STANDARD BORDER_DEFAULT);
    ("padding", PADDING_SMALL);
    ("background-color", BACKGROUND_WHITE);
    ("color", TEXT_DEFAULT);
    ("font-family", DEFAULT_FAMILY);
    ("font-size", DEFAULT_SIZE);
    ("border-radius", px BORDER_RADIUS_STANDARD);
    ("selection-background-color", SELECTION_BG);
    ("selection-color", SELECTION_TEXT) ];
  rule "QTextEdit" (Some focus) [
    ("border", solid BORDER_WIDTH_THICK BORDER_FOCUS);
    ("outline", "none") ];
  rule "QTextEdit" (Some disabled) [
    ("background-color", BACKGROUND_DISABLED);
    ("color", TEXT_DISABLED);
    ("border", solid BORDER_WIDTH_STANDARD BORDER_DISABLED) ] ].

Definition port_label : StyleSheet := [
  rule "QLabel" None [
    ("font-weight", BOLD_WEIGHT);
    ("color", TEXT_DEFAULT);
    ("font-family", DEFAULT_FAMILY);
    ("font-size", DEFAULT_SIZE) ] ].

Definition icon_button_hover_danger : StyleSheet :=
  let base := icon_button in
  base ++ [
    rule "QPushButton" (Some hover) [
      ("background-color", ERROR_BACKGROUND);
      ("border", solid BORDER_WIDTH_STANDARD ERROR_BORDER) ] ].

End AppStyles.

(** ** Icon renderer *)

Module IconManager.
Import Py Qt AppColors.

Section Toolkit.
(** The application object, if one is running. *)
Variable app : option QApplication.
(** Result of [QSvgRenderer.load] on a document: whether it parsed. *)
Variable svg_load : string -> bool.

Definition get_scaled_size (base_size : Z) (scale_factor : Q) : QSize :=
  let scale_factor :=
    match app with
    | Some a =>
        match primaryScreen a with
        | Some screen => (scale_factor * devicePixelRatio screen)%Q
        | None => scale_factor
        end
    | None => scale_factor
    end in
  let scaled_size := int_of_float (inject_Z base_size * scale_factor)%Q in
  {| width := scaled_size; height := scaled_size |}.

Definition _svg_to_pixmap (svg_data : string) (size : QSize) : QPixmap :=
  let valid := svg_load svg_data in
  let pixmap := new_QPixmap size in
  render valid svg_data pixmap.

Definition create_svg_icon (svg_template color : string) (size : QSize)
  : result QIcon :=
  svg_data ← str_format svg_template color;
  let icon : QIcon := [] in
  let normal_pixmap := _svg_to_pixmap svg_data size in
  let icon := addPixmap icon normal_pixmap Normal Off in
  hover_svg ← str_format svg_template ICON_HOVER;
  let hover_pixmap := _svg_to_pixmap hover_svg size in
  let icon := addPixmap icon hover_pixmap Active Off in
  pressed_svg ← str_format svg_template ICON_PRESSED;
  let pressed_pixmap := _svg_to_pixmap pressed_svg size in
  let icon := addPixmap icon pressed_pixmap Selected Off in
  disabled_svg ← str_format svg_template ICON_DISABLED;
  let disabled_pixmap := _svg_to_pixmap disabled_svg size in
  let icon := addPixmap icon disabled_pixmap Disabled Off in
  mret icon.

End Toolkit.
End IconManager.

(** ** Messages *)

Module AppMessages.
Definition BUTTON_ROUTE_MODE := "Route Mode: {mode} ▼".
Definition BUTTON_PORT_LABEL := "Port {number}:".
End AppMessages.

(** ** Widget factory *)

Module ThemeManager.
Import Py Qt AppColors AppDimensions.

Definition create_button (text : string) (callback : option Callable)
    (style_type variant : string) (enabled : bool) : QPushButton :=
  let button := new_QPushButton text in
  let button :=
    if decide (style_type = "large") then
      setStyleSheet button AppStyles.button_large
    else if decide (style_type = "compact") then
      setStyleSheet button AppStyles.button_compact
    else if decide (style_type = "icon") then
      setStyleSheet button AppStyles.icon_button
    else
      setStyleSheet button (AppStyles.button variant) in
  let button := setEnabled button enabled in
  match callback with
  | Some c => connect_clicked button c
  | None => button
  end.

Definition size_map : gmap string Z :=
  {[ "small" := ICON_SIZE_SMALL;
     "medium" := ICON_SIZE_MEDIUM;
     "large" := ICON_SIZE_LARGE;
     "xlarge" := ICON_SIZE_XLARGE ]}.

Section Environment.
Variable app : option QApplication.
Variable svg_load : string -> bool.
(** Attributes of the class [AppIcons] (module [ui.theme.icons.icons]):
    icon name to SVG template. *)
Variable AppIcons : gmap string string.

Definition create_icon_button (icon_name tooltip size : string)
  : result QPushButton :=
  let button := new_QPushButton "" in
  let base_size := dict_get size_map size ICON_SIZE_MEDIUM in
  let icon_size := IconManager.get_scaled_size app base_size 1 in
  let icon_template := getattr AppIcons (str_upper icon_name) in
  button ←
    (if truthy icon_template then
       icon ← IconManager.create_svg_icon svg_load
                (default "" icon_template) ICON_DEFAULT icon_size;
       let button := setIcon button icon in
       mret (setIconSize button icon_size)
     else mret button);
  let button := setStyleSheet button AppStyles.icon_button in
  let button :=
    if bool_decide (tooltip = "") then button else setToolTip button tooltip in
  mret button.

End Environment.

Definition create_label (text style_type : string) : QLabel :=
  let label := new_QLabel text in
  let style_map : gmap string StyleSheet :=
    {[ "standard" := AppStyles.label; "status" := AppStyles.label_status ]} in
  label_setStyleSheet label (dict_get style_map style_type AppStyles.label).

Definition create_notification_label (text notification_type : string)
  : result QLabel :=
  let label := new_QLabel text in
  sheet ← AppStyles.notification notification_type;
  mret (label_setStyleSheet label sheet).

Definition create_separator (orientation : string) (parent : option nat)
  : QFrame :=
  let separator := new_QFrame parent in
  let separator :=
    if decide (orientation = "horizontal") then setFrameShape separator HLine
    else setFrameShape separator VLine in
  let separator := setFrameShadow separator Sunken in
  frame_setStyleSheet separator (AppStyles.separator orientation).

Definition create_textedit (font_type : string) : QTextEdit :=
  let textedit := new_QTextEdit in
  let textedit := textedit_setStyleSheet textedit AppStyles.textedit in
  if decide (font_type = "console") then setFont textedit AppFonts.CONSOLE
  else if decide (font_type = "console_large")
       then setFont textedit AppFonts.CONSOLE_LARGE
       else textedit.

(** [str(number)] is substituted for [{number}]. *)
Definition create_port_label (number : Z) : result QLabel :=
  text ← str_format_kw "number" AppMessages.BUTTON_PORT_LABEL (pretty number);
  let label := new_QLabel text in
  let label := label_setFixedWidth label WIDTH_LABEL_PORT in
  mret (label_setStyleSheet label AppStyles.port_label).

Definition mode_names : gmap string string :=
  {[ "one_way" := "One-Way";
     "two_way" := "Two-Way";
     "full_network" := "Full Network" ]}.

Definition create_route_mode_button (initial_mode : string)
    (callback : option Callable) : result QPushButton :=
  text ← str_format_kw "mode" AppMessages.BUTTON_ROUTE_MODE
           (dict_get mode_names initial_mode "One-Way");
  let btn := create_button text callback "standard" "default" true in
  mret (setToolTip btn "Configure data routing between ports").

Definition margin_map : gmap string (Z * Z * Z * Z) :=
  {[ "dialog" := MARGIN_DIALOG;
     "control" := MARGIN_CONTROL;
     "small" := MARGIN_SMALL;
     "none" := MARGIN_NONE;
     "standard" := MARGIN_DIALOG ]}.

Definition set_widget_margins (widget : MarginHolder) (margin_type : string)
  : MarginHolder :=
  let margins := dict_get margin_map margin_type MARGIN_DIALOG in
  if has_setContentsMargins widget then setContentsMargins widget margins
  else widget.

Definition create_dialog_window (title : string) (width height : option Z)
  : QDialog :=
  let dialog := new_QDialog in
  let dialog := setWindowTitle dialog title in
  setMinimumSize dialog (or_int width MIN_DIALOG_WIDTH)
                        (or_int height MIN_DIALOG_HEIGHT).

Definition accent_colors : gmap string string :=
  {[ "blue" := ACCENT_BLUE;
     "green" := ACCENT_GREEN;
     "orange" := ACCENT_ORANGE;
     "red" := ACCENT_RED;
     "purple" := ACCENT_PURPLE;
     "magenta" := ACCENT_MAGENTA;
     "yellow" := ACCENT_YELLOW;
     "teal" := ACCENT_TEAL;
     "pair_highlight" := PAIR_HIGHLIGHT;
     "pair_info" := PAIR_INFO ]}.

Definition get_accent_color (color_type : string) : QColor :=
  let color_hex := dict_get accent_colors color_type ACCENT_BLUE in
  {| color_name := color_hex |}.

End ThemeManager.

(** ** The engine as its callers see it *)

Module Engine.
Import Py Qt.

(** A call of one of the style functions of [AppStyles]: the control
    category and, where the function takes one, the variant. *)
Inductive StyleRequest :=
| Button (style_variant : string)
| ButtonLarge
| ButtonCompact
| IconButton
| Notification (notification_type : string)
| Separator (orientation : string)
| PortTypeIndicator (style_type : string).

Definition resolve (r : StyleRequest) : result StyleSheet :=
  match r with
  | Button v => mret (AppStyles.button v)
  | ButtonLarge => mret AppStyles.button_large
  | ButtonCompact => mret AppStyles.button_compact
  | IconButton => mret AppStyles.icon_button
  | Notification t => AppStyles.notification t
  | Separator o => mret (AppStyles.separator o)
  | PortTypeIndicator t => AppStyles.port_type_indicator t
  end.

(** State of the process around a call: the toolkit's application object,
    the behaviour of its SVG loader and the icon registry. *)
Record World := {
  application : option QApplication;
  svg_loader : string -> bool;
  icon_registry : gmap string string
}.

Inductive Call :=
| Resolve (r : StyleRequest)
| GetSemanticColor (semantic_type element : string)
| GetScaledSize (base_size : Z) (scale_factor : Q)
| CreateSvgIcon (svg_template color : string) (size : QSize)
| CreateButton (text : string) (callback : option Callable)
               (style_type variant : string) (enabled : bool)
| CreateIconButton (icon_name tooltip size : string).

Inductive Answer :=
| Style (s : result StyleSheet)
| Colour (c : result string)
| Size (s : QSize)
| Icon (i : result QIcon)
| Widget (b : result QPushButton).

Definition answer (w : World) (c : Call) : Answer :=
  match c with
  | Resolve r => Style (resolve r)
  | GetSemanticColor t e => Colour (ThemeManagerColors.get_semantic_color t e)
  | GetScaledSize b s => Size (IconManager.get_scaled_size (application w) b s)
  | CreateSvgIcon t c s => Icon (IconManager.create_svg_icon (svg_loader w) t c s)
  | CreateButton t cb st v e => Widget (mret (ThemeManager.create_button t cb st v e))
  | CreateIconButton n t s =>
      Widget (ThemeManager.create_icon_button (application w) (svg_loader w)
                (icon_registry w) n t s)
  end.



Definition square (side : Z) : QSize := {| width := side; height := side |}.

Definition all_modes : list Mode := [Normal; Active; Selected; Disabled].


(** Entry of state [m]: a pixmap of the given size on which [doc] is
    drawn if the loader parsed it, and nothing otherwise. *)
Definition state_entry (svg_load : string -> bool) (doc : string)
    (size : QSize) (m : Mode) : IconEntry :=
  {| ie_pixmap := {| pm_size := size;
                     pm_image := if svg_load doc then Some doc else None |};
     ie_mode := m; ie_state := Off |}.



End Engine.

(** ** Sample environments used to evaluate the definitions *)

Module Samples.
Import Qt.

Definition square_template : string :=
  "<svg viewBox='0 0 16 16'><path fill='{color}' d='M2 2h12v12H2z'/></svg>".

Definition icons : gmap string string := {[ "REFRESH" := square_template ]}.

(** A loader that parses every document. *)
Definition lenient_load (doc : string) : bool := true.

(** The square template with the colour ["<"], which is not well-formed
    markup, and a loader that rejects it. *)
Definition broken_doc : string :=
  "<svg viewBox='0 0 16 16'><path fill='<' d='M2 2h12v12H2z'/></svg>".
Definition strict_load (doc : string) : bool := bool_decide (doc ≠ broken_doc).

(** An application on a screen scaled to 175%. *)
Definition hidpi : option QApplication :=
  Some {| primaryScreen := Some {| devicePixelRatio := 7 # 4 |} |}.



(** A registry with a key that is not upper case. *)
Definition mixed_case_icons : gmap string string :=
  {[ "REFRESH" := square_template; "Close" := square_template ]}.

End Samples.

(** * Properties *)

Import Py Qt AppColors AppDimensions Engine.

(** ** Dictionaries *)

(** Splits a hypothesis [k ∉ [a; b; ...]] into [k ≠ a], [k ≠ b], ... *)
Ltac split_notin H :=
  repeat (apply not_elem_of_cons in H;
          let Hne := fresh "Hne" in destruct H as [Hne H]).

Lemma dict_get_total {V} (d : gmap string V) k dflt v :
  d !! k = Some v -> dict_get d k dflt = v.
Proof. unfold dict_get. by intros ->. Qed.

Lemma dict_get_missing {V} (d : gmap string V) k dflt :
  d !! k = None -> dict_get d k dflt = dflt.
Proof. unfold dict_get. by intros ->. Qed.

Lemma color_map_unknown (semantic_type : string) :
  semantic_type ∉ ["success"; "warning"; "error"; "info"] ->
  ThemeManagerColors.color_map !! semantic_type = None.
Proof.
  intros H. split_notin H. unfold ThemeManagerColors.color_map.
  rewrite !lookup_insert_ne by done. by apply lookup_singleton_ne.
Qed.

Lemma color_map_known (semantic_type : string) :
  semantic_type ∈ ["success"; "warning"; "error"; "info"] ->
  exists entry, ThemeManagerColors.color_map !! semantic_type = Some entry
    /\ forall element, element ∉ ["primary"; "background"; "border"] ->
         entry !! element = None.
Proof.
  intros H. rewrite !elem_of_cons, elem_of_nil in H.
  destruct H as [-> | [-> | [-> | [-> | []]]]];
    (eexists; split;
      [ unfold ThemeManagerColors.color_map;
        rewrite ?lookup_insert_ne by done;
        first [ apply lookup_insert_eq | apply lookup_singleton_eq ] | ]);
    intros element He; split_notin He;
    rewrite !lookup_insert_ne by done; by apply lookup_singleton_ne.
Qed.

Lemma type_colors_unknown (notification_type : string) :
  notification_type ∉ ["success"; "warning"; "error"; "info"] ->
  AppStyles.type_colors !! notification_type = None.
Proof.
  intros H. split_notin H. unfold AppStyles.type_colors.
  rewrite !lookup_insert_ne by done. by apply lookup_singleton_ne.
Qed.

Lemma size_map_unknown (size : string) :
  size ∉ ["small"; "medium"; "large"; "xlarge"] ->
  ThemeManager.size_map !! size = None.
Proof.
  intros H. split_notin H. unfold ThemeManager.size_map.
  rewrite !lookup_insert_ne by done. by apply lookup_singleton_ne.
Qed.

Lemma get_semantic_color_eq (semantic_type element : string) :
  ThemeManagerColors.get_semantic_color semantic_type element
  = Ok (dict_get
          (dict_get ThemeManagerColors.color_map semantic_type
             {[ "primary" := INFO_PRIMARY; "background" := INFO_BACKGROUND;
                "border" := INFO_BORDER ]})
          element INFO_PRIMARY).
Proof. reflexivity. Qed.

Lemma get_semantic_color_unknown_category (semantic_type element : string) :
  semantic_type ∉ ["success"; "warning"; "error"; "info"] ->
  ThemeManagerColors.get_semantic_color semantic_type element
  = ThemeManagerColors.get_semantic_color "info" element.
Proof.
  intros Hcat. rewrite !get_semantic_color_eq. f_equal.
  by rewrite (dict_get_missing _ _ _ (color_map_unknown _ Hcat)).
Qed.

(** ** Semantic colour resolver *)

(** C3, as it stands, fails: for the known category ["success"] an
    unrecognised element yields the info primary colour, which is not the
    primary colour of ["success"]. *)
Lemma C3_unknown_element_is_not_category_primary :
  ThemeManagerColors.get_semantic_color "success" "bogus" = Ok INFO_PRIMARY
  /\ ThemeManagerColors.get_semantic_color "success" "primary" = Ok SUCCESS_PRIMARY
  /\ ThemeManagerColors.get_semantic_color "success" "bogus"
     <> ThemeManagerColors.get_semantic_color "success" "primary".
Proof. vm_compute. repeat split; discriminate. Qed.

(** C3 (amended): semantic colour resolution returns a value for every
    category and element; an unrecognised category is resolved as ["info"];
    an unrecognised element yields the primary colour of ["info"], whatever
    the category. *)
Theorem C3_semantic_color_total_with_fallbacks (semantic_type element : string) :
  (exists v, ThemeManagerColors.get_semantic_color semantic_type element = Ok v)
  /\ (semantic_type ∉ ["success"; "warning"; "error"; "info"] ->
      ThemeManagerColors.get_semantic_color semantic_type element
      = ThemeManagerColors.get_semantic_color "info" element)
  /\ (element ∉ ["primary"; "background"; "border"] ->
      ThemeManagerColors.get_semantic_color semantic_type element = Ok INFO_PRIMARY).
Proof.
  split; [ | split ].
  - rewrite get_semantic_color_eq. eauto.
  - apply get_semantic_color_unknown_category.
  - intros Hel. rewrite get_semantic_color_eq. f_equal.
    destruct (decide (semantic_type ∈ ["success"; "warning"; "error"; "info"]))
      as [Hin | Hout].
    + destruct (color_map_known _ Hin) as (entry & Hentry & Hnone).
      rewrite (dict_get_total _ _ _ _ Hentry).
      by apply dict_get_missing, Hnone.
    + rewrite (dict_get_missing _ _ _ (color_map_unknown _ Hout)).
      apply dict_get_missing. split_notin Hel.
      rewrite !lookup_insert_ne by done. by apply lookup_singleton_ne.
Qed.

Lemma C3_semantic_color_witness :
  ("bogus" ∉ ["success"; "warning"; "error"; "info"])
  /\ ("shade" ∉ ["primary"; "background"; "border"])
  /\ ThemeManagerColors.get_semantic_color "bogus" "border" = Ok INFO_BORDER
  /\ ThemeManagerColors.get_semantic_color "warning" "shade" = Ok INFO_PRIMARY.
Proof.
  destruct (C3_semantic_color_total_with_fallbacks "bogus" "border") as (_ & Hc & _).
  destruct (C3_semantic_color_total_with_fallbacks "warning" "shade") as (_ & _ & He).
  split; [ compute_done | split; [ compute_done | split ] ].
  - rewrite Hc; [ reflexivity | compute_done ].
  - apply He. compute_done.
Defined.

(** ** Template formatting *)

Lemma same_outcome_bind {A B} (r1 r2 : result A) (k1 k2 : A -> result B) :
  same_outcome r1 r2 ->
  (forall a b, same_outcome (k1 a) (k2 b)) ->
  same_outcome (bind r1 k1) (bind r2 k2).
Proof. destruct r1, r2; simpl; intros H Hk; try done. Qed.

Lemma format_field_outcome (field c1 c2 : string) :
  same_outcome (format_field field c1) (format_field field c2).
Proof.
  unfold format_field.
  destruct (negb _); [ done | ].
  case_bool_decide; [ done | ].
  destruct (forallb_string is_digit field); [ | done ].
  by destruct (_ <=? _)%nat.
Qed.

(** Whether, and how, formatting fails is decided by the template alone. *)
Lemma format_scan_outcome (c1 c2 : string) (n : nat) :
  forall s field, (String.length s <= n)%nat ->
    same_outcome (format_scan s field c1) (format_scan s field c2).
Proof.
  induction n as [| n IH]; intros s field Hlen.
  - destruct s; [ | simpl in Hlen; lia ]. by destruct field.
  - destruct s as [| c rest]; [ by destruct field | ].
    simpl in Hlen.
    assert (Hrest : forall fld, same_outcome (format_scan rest fld c1)
                                             (format_scan rest fld c2))
      by (intros; apply IH; lia).
    assert (Hskip : forall c' rest', rest = String c' rest' ->
              same_outcome (x ← format_scan rest' None c1; Ok (String c x))
                           (x ← format_scan rest' None c2; Ok (String c x))).
    { intros c' rest' ->. apply same_outcome_bind; [ | done ].
      apply IH. simpl in Hlen. lia. }
    destruct field as [f |]; cbn [format_scan].
    + case_bool_decide; [ | apply Hrest ].
      apply same_outcome_bind; [ apply format_field_outcome | ].
      intros. apply same_outcome_bind; [ apply Hrest | done ].
    + case_bool_decide.
      * destruct rest as [| c' rest']; [ apply Hrest | ].
        destruct (decide (c' = "{"%char)) as [-> | Hne].
        -- by apply (Hskip "{"%char rest').
        -- specialize (Hrest (Some "")).
           destruct c' as [[] [] [] [] [] [] [] []]; try apply Hrest.
           by contradict Hne.
      * case_bool_decide.
        -- destruct rest as [| c' rest']; [ done | ].
           destruct (decide (c' = "}"%char)) as [-> | Hne].
           ++ by apply (Hskip "}"%char rest').
           ++ by destruct c' as [[] [] [] [] [] [] [] []].
        -- apply same_outcome_bind; [ apply Hrest | done ].
Qed.

Lemma str_format_outcome (template c1 c2 : string) :
  same_outcome (str_format template c1) (str_format template c2).
Proof. apply (format_scan_outcome c1 c2 (String.length template)). lia. Qed.

Lemma str_format_returns (template c1 c2 : string) :
  returns (str_format template c1) -> returns (str_format template c2).
Proof.
  intros [d Hd]. pose proof (str_format_outcome template c1 c2) as H.
  rewrite Hd in H. destruct (str_format template c2); [ by eexists | done ].
Qed.

(** ** Icon renderer *)

Lemma svg_to_pixmap_visible (svg_load : string -> bool) doc size :
  0 < width size -> 0 < height size ->
  IconManager._svg_to_pixmap svg_load doc size
  = {| pm_size := size; pm_image := if svg_load doc then Some doc else None |}.
Proof.
  intros Hw Hh. unfold IconManager._svg_to_pixmap, new_QPixmap, render, isNull.
  apply Z.ltb_lt in Hw, Hh. rewrite Hw, Hh. simpl. rewrite Hw, Hh. simpl.
  by destruct (svg_load doc).
Qed.

Lemma svg_to_pixmap_null (svg_load : string -> bool) doc size :
  (width size <= 0 \/ height size <= 0) ->
  isNull (IconManager._svg_to_pixmap svg_load doc size) = true.
Proof.
  intros Hsize. unfold IconManager._svg_to_pixmap, new_QPixmap, render.
  assert ((0 <? width size) && (0 <? height size) = false) as ->.
  { apply andb_false_iff. rewrite !Z.ltb_ge. tauto. }
  simpl. by rewrite andb_false_r.
Qed.

(** What [create_svg_icon] returns: the exception of the first formatting
    when it raises, else the four entries in the order they were added, or
    no entry when the size is not positive. *)
Lemma create_svg_icon_cases (svg_load : string -> bool) template color size :
  match IconManager.create_svg_icon svg_load template color size with
  | Raise e => str_format template color = Raise e
  | Ok icon =>
      exists dn dh dp dd,
        str_format template color = Ok dn
        /\ str_format template ICON_HOVER = Ok dh
        /\ str_format template ICON_PRESSED = Ok dp
        /\ str_format template ICON_DISABLED = Ok dd
        /\ icon = if (0 <? width size) && (0 <? height size)
                  then [ state_entry svg_load dn size Normal;
                         state_entry svg_load dh size Active;
                         state_entry svg_load dp size Selected;
                         state_entry svg_load dd size Disabled ]
                  else []
  end.
Proof.
  unfold IconManager.create_svg_icon.
  destruct (str_format template color) as [dn | e] eqn:Hn; [ | done ].
  destruct (str_format_returns template color ICON_HOVER) as [dh Hh]; [ by eexists | ].
  destruct (str_format_returns template color ICON_PRESSED) as [dp Hp]; [ by eexists | ].
  destruct (str_format_returns template color ICON_DISABLED) as [dd Hd]; [ by eexists | ].
  rewrite Hh, Hp, Hd. simpl.
  exists dn, dh, dp, dd. repeat (split; [ done | ]).
  destruct (0 <? width size) eqn:Hw; [ destruct (0 <? height size) eqn:Hhh | ]; simpl.
  - apply Z.ltb_lt in Hw, Hhh. rewrite !svg_to_pixmap_visible by done.
    unfold addPixmap, isNull. simpl.
    apply Z.ltb_lt in Hw, Hhh. by rewrite Hw, Hhh.
  - apply Z.ltb_ge in Hhh. unfold addPixmap.
    by rewrite !svg_to_pixmap_null by tauto.
  - apply Z.ltb_ge in Hw. unfold addPixmap.
    by rewrite !svg_to_pixmap_null by tauto.
Qed.

Lemma create_svg_icon_returns (svg_load : string -> bool) template color size :
  returns (str_format template color) ->
  returns (IconManager.create_svg_icon svg_load template color size).
Proof.
  intros [dn Hdn].
  pose proof (create_svg_icon_cases svg_load template color size) as H.
  destruct (IconManager.create_svg_icon svg_load template color size)
    as [icon | e]; [ by eexists | congruence ].
Qed.




(** C2, as it stands, fails: a render request of size 0 does not fail; the
    scaled size is 0 x 0 and the icon that is returned holds no bitmap. *)
Lemma C2_size_zero_returns_an_icon :
  IconManager.get_scaled_size None 0 1 = square 0
  /\ IconManager.create_svg_icon Samples.lenient_load Samples.square_template
       ICON_DEFAULT (IconManager.get_scaled_size None 0 1) = Ok []
  /\ ~ fails (IconManager.create_svg_icon Samples.lenient_load
                Samples.square_template ICON_DEFAULT
                (IconManager.get_scaled_size None 0 1)).
Proof.
  split; [ reflexivity | ].
  assert (H : IconManager.create_svg_icon Samples.lenient_load
                Samples.square_template ICON_DEFAULT
                (IconManager.get_scaled_size None 0 1) = Ok [])
    by (vm_compute; reflexivity).
  split; [ exact H | ]. intros [e He]. rewrite H in He. discriminate.
Qed.

(** C2 (amended): no requested size makes the icon renderer fail.  Whenever
    the template formats with the requested colour, rendering returns an
    icon for every size, positive or not; for a size with a dimension <= 0
    the icon holds no bitmap. *)
Theorem C2_no_size_makes_rendering_fail (svg_load : string -> bool)
    (template color : string) (size : QSize) :
  returns (str_format template color) ->
  exists icon,
    IconManager.create_svg_icon svg_load template color size = Ok icon
    /\ (width size <= 0 \/ height size <= 0 -> icon = []).
Proof.
  intros [dn Hdn].
  pose proof (create_svg_icon_cases svg_load template color size) as H.
  destruct (IconManager.create_svg_icon svg_load template color size)
    as [icon | e]; [ | congruence ].
  exists icon. split; [ done | ]. intros Hsize.
  destruct H as (? & ? & ? & ? & _ & _ & _ & _ & ->).
  assert ((0 <? width size) && (0 <? height size) = false) as ->; [ | done ].
  apply andb_false_iff. rewrite !Z.ltb_ge. tauto.
Qed.

Lemma C2_no_size_witness :
  returns (str_format Samples.square_template ICON_DEFAULT)
  /\ exists icon,
       IconManager.create_svg_icon Samples.lenient_load Samples.square_template
         ICON_DEFAULT (square (-3)) = Ok icon
       /\ (width (square (-3)) <= 0 \/ height (square (-3)) <= 0 -> icon = []).
Proof.
  assert (Hfmt : returns (str_format Samples.square_template ICON_DEFAULT))
    by (eexists; vm_compute; reflexivity).
  split; [ exact Hfmt | ].
  exact (C2_no_size_makes_rendering_fail Samples.lenient_load
           Samples.square_template ICON_DEFAULT (square (-3)) Hfmt).
Defined.








(** ** Widget factory: icon buttons *)

(** The button that [create_icon_button] returns when it attaches no icon. *)
Lemma create_icon_button_without_template (app : option QApplication)
    (svg_load : string -> bool) (AppIcons : gmap string string)
    (icon_name tooltip size : string) :
  truthy (getattr AppIcons (str_upper icon_name)) = false ->
  ThemeManager.create_icon_button app svg_load AppIcons icon_name tooltip size
  = Ok (let button := setStyleSheet (new_QPushButton "") AppStyles.icon_button in
        if bool_decide (tooltip = "") then button else setToolTip button tooltip).
Proof. unfold ThemeManager.create_icon_button. by intros ->. Qed.

(** C1, as it stands, fails: the identifier ["nonexistent_icon"] names no
    template of the registry, and the creation returns a button. *)
Lemma C1_unknown_icon_returns_a_button :
  getattr Samples.icons (str_upper "nonexistent_icon") = None
  /\ ThemeManager.create_icon_button None Samples.lenient_load Samples.icons
       "nonexistent_icon" "" "medium"
     = Ok (setStyleSheet (new_QPushButton "") AppStyles.icon_button)
  /\ ~ fails (ThemeManager.create_icon_button None Samples.lenient_load
                Samples.icons "nonexistent_icon" "" "medium").
Proof.
  assert (H : ThemeManager.create_icon_button None Samples.lenient_load
                Samples.icons "nonexistent_icon" "" "medium"
              = Ok (setStyleSheet (new_QPushButton "") AppStyles.icon_button))
    by (vm_compute; reflexivity).
  split; [ vm_compute; reflexivity | ].
  split; [ exact H | ]. intros [e He]. rewrite H in He. discriminate.
Qed.

(** C1 (amended): for every icon-button creation request whose icon
    identifier, upper-cased, names no template of the registry (or an empty
    one), the creation does not fail: it returns a button that carries no
    icon and no icon size, has the icon-button style sheet and the
    requested tooltip. *)
Theorem C1_unknown_icon_yields_button_without_icon (app : option QApplication)
    (svg_load : string -> bool) (AppIcons : gmap string string)
    (icon_name tooltip size : string) :
  truthy (getattr AppIcons (str_upper icon_name)) = false ->
  exists button,
    ThemeManager.create_icon_button app svg_load AppIcons icon_name tooltip size
    = Ok button
    /\ icon button = []
    /\ iconSize button = None
    /\ styleSheet button = AppStyles.icon_button
    /\ toolTip button = tooltip.
Proof.
  intros Hmissing.
  rewrite (create_icon_button_without_template _ _ _ _ _ _ Hmissing).
  eexists. split; [ reflexivity | ].
  case_bool_decide as Htip; simpl; by rewrite ?Htip.
Qed.

Lemma C1_unknown_icon_witness :
  truthy (getattr Samples.icons (str_upper "nonexistent_icon")) = false
  /\ exists button,
       ThemeManager.create_icon_button Samples.hidpi Samples.strict_load
         Samples.icons "nonexistent_icon" "Reload" "large" = Ok button
       /\ icon button = []
       /\ iconSize button = None
       /\ styleSheet button = AppStyles.icon_button
       /\ toolTip button = "Reload".
Proof.
  assert (H : truthy (getattr Samples.icons (str_upper "nonexistent_icon")) = false)
    by (vm_compute; reflexivity).
  split; [ exact H | ].
  exact (C1_unknown_icon_yields_button_without_icon Samples.hidpi
           Samples.strict_load Samples.icons "nonexistent_icon" "Reload" "large" H).
Defined.

(** C10: for every size-tier string outside small, medium, large and xlarge,
    icon-button creation takes the medium base size of 20 pixels: the call
    has the outcome of the same call with tier ["medium"]; it returns a
    button when the identifier names no template, and when it names a
    template that formats, in which case the icon size of the button is the
    scaled size of base 20. *)
Theorem C10_unknown_size_tier_is_medium (app : option QApplication)
    (svg_load : string -> bool) (AppIcons : gmap string string)
    (icon_name tooltip size : string) :
  size ∉ ["small"; "medium"; "large"; "xlarge"] ->
  dict_get ThemeManager.size_map size ICON_SIZE_MEDIUM = 20
  /\ ThemeManager.create_icon_button app svg_load AppIcons icon_name tooltip size
     = ThemeManager.create_icon_button app svg_load AppIcons icon_name tooltip "medium"
  /\ (truthy (getattr AppIcons (str_upper icon_name)) = false ->
      returns (ThemeManager.create_icon_button app svg_load AppIcons
                 icon_name tooltip size))
  /\ (forall template,
        getattr AppIcons (str_upper icon_name) = Some template ->
        template <> "" ->
        returns (str_format template ICON_DEFAULT) ->
        exists button,
          ThemeManager.create_icon_button app svg_load AppIcons icon_name tooltip size
          = Ok button
          /\ iconSize button = Some (IconManager.get_scaled_size app 20 1)
          /\ IconManager.create_svg_icon svg_load template ICON_DEFAULT
               (IconManager.get_scaled_size app 20 1) = Ok (icon button)).
Proof.
  intros Hsize.
  assert (Hbase : dict_get ThemeManager.size_map size ICON_SIZE_MEDIUM = 20)
    by (by rewrite (dict_get_missing _ _ _ (size_map_unknown _ Hsize))).
  split; [ exact Hbase | ].
  split; [ unfold ThemeManager.create_icon_button; by rewrite Hbase | ].
  split.
  - intros Hmissing.
    rewrite (create_icon_button_without_template _ _ _ _ _ _ Hmissing).
    by eexists.
  - intros template Htemplate Hnonempty Hformat.
    unfold ThemeManager.create_icon_button. rewrite Hbase, Htemplate.
    destruct template as [| c rest]; [ done | ]. simpl.
    destruct (create_svg_icon_returns svg_load (String c rest) ICON_DEFAULT
                (IconManager.get_scaled_size app 20 1) Hformat) as [i Hi].
    rewrite Hi. simpl.
    eexists. split; [ reflexivity | ].
    by case_bool_decide.
Qed.

Lemma C10_unknown_size_tier_witness :
  ("huge" ∉ ["small"; "medium"; "large"; "xlarge"])
  /\ dict_get ThemeManager.size_map "huge" ICON_SIZE_MEDIUM = 20
  /\ exists button,
       ThemeManager.create_icon_button Samples.hidpi Samples.lenient_load
         Samples.icons "refresh" "Reload" "huge" = Ok button
       /\ iconSize button = Some (square 35).
Proof.
  assert (H : "huge" ∉ ["small"; "medium"; "large"; "xlarge"]) by compute_done.
  destruct (C10_unknown_size_tier_is_medium Samples.hidpi Samples.lenient_load
              Samples.icons "refresh" "Reload" "huge" H)
    as (Hbase & _ & _ & Htemplate).
  split; [ exact H | ]. split; [ exact Hbase | ].
  destruct (Htemplate Samples.square_template) as (button & Hb & Hsize & _).
  - reflexivity.
  - discriminate.
  - eexists. vm_compute. reflexivity.
  - exists button. split; [ exact Hb | exact Hsize ].
Defined.

(** ** Style resolver *)

Lemma type_colors_info :
  dict_getitem AppStyles.type_colors "info"
  = Ok (INFO_BACKGROUND, INFO_BORDER, INFO_PRIMARY).
Proof. reflexivity. Qed.


Lemma notification_unknown_type (notification_type : string) :
  notification_type ∉ ["success"; "warning"; "error"; "info"] ->
  AppStyles.notification notification_type = AppStyles.notification "info".
Proof.
  intros H. unfold AppStyles.notification. rewrite type_colors_info. simpl.
  by rewrite (dict_get_missing _ _ _ (type_colors_unknown _ H)).
Qed.

Lemma notification_returns (notification_type : string) :
  returns (AppStyles.notification notification_type).
Proof.
  unfold AppStyles.notification. rewrite type_colors_info. simpl.
  destruct (dict_get _ _ _) as [[bg border] fg]. by eexists.
Qed.


Lemma create_button_fields (text : string) (callback : option Callable)
    (style_type variant : string) (e : bool) :
  let b := ThemeManager.create_button text callback style_type variant e in
  styleSheet b
  = (if decide (style_type = "large") then AppStyles.button_large
     else if decide (style_type = "compact") then AppStyles.button_compact
     else if decide (style_type = "icon") then AppStyles.icon_button
     else AppStyles.button variant)
  /\ enabled b = e
  /\ down b = false.
Proof.
  unfold ThemeManager.create_button.
  destruct callback; repeat case_decide; by simpl.
Qed.



(** The orientation of a separator is not resolved that way: any string
    other than ["horizontal"], the default of the parameter, selects the
    vertical style. *)
Remark separator_unknown_orientation_is_vertical (orientation : string) :
  orientation <> "horizontal" ->
  AppStyles.separator orientation = AppStyles.separator "vertical".
Proof. intros H. unfold AppStyles.separator. by rewrite decide_False by done. Qed.

(** ** Widget factory: buttons *)

(** The drawn value of a property depends on the style sheet and on the
    enabled and down flags of the button only. *)
Lemma effective_ext (b1 b2 : QPushButton) (i : Interaction) (prop : string) :
  styleSheet b1 = styleSheet b2 -> enabled b1 = enabled b2 -> down b1 = down b2 ->
  effective b1 i prop = effective b2 i prop.
Proof.
  intros Hs He Hd. unfold effective, pseudo_states. by rewrite Hs, He, Hd.
Qed.

Lemma create_button_standard_sheet (text : string) (callback : option Callable)
    (style_type variant : string) (e : bool) :
  style_type ∉ ["large"; "compact"; "icon"] ->
  forall i prop,
    effective (ThemeManager.create_button text callback style_type variant e) i prop
    = effective (ThemeManager.create_button "" None "standard" variant e) i prop.
Proof.
  intros H i prop. split_notin H.
  destruct (create_button_fields text callback style_type variant e) as (Hs & He & Hd).
  destruct (create_button_fields "" None "standard" variant e) as (Hs' & He' & Hd').
  apply effective_ext; [ | congruence | congruence ].
  rewrite Hs, Hs'. by rewrite !decide_False by done.
Qed.

(** C4, as it stands, fails: for the large tier the variant is not looked
    at; a large primary button has the style sheet of a large default
    button, and its background is the default button colour and not the
    accent colour of the primary variant. *)
Lemma C4_large_tier_ignores_the_variant :
  styleSheet (ThemeManager.create_button "OK" None "large" "primary" true)
  = styleSheet (ThemeManager.create_button "OK" None "large" "default" true)
  /\ effective (ThemeManager.create_button "OK" None "large" "primary" true)
       idle "background-color" = Some BUTTON_DEFAULT
  /\ effective (ThemeManager.create_button "OK" None "large" "primary" true)
       idle "background-color" <> Some ACCENT_BLUE.
Proof. vm_compute. repeat split; discriminate. Qed.

(** C4 (amended): for the standard size tier (every tier string other than
    large, compact and icon) and each of the variants primary, success and
    danger, the style sheet is the default button style followed by the
    variant's rules, and the variant's background, text and border colours
    replace the base ones in the drawn style of the enabled button; for the
    tiers large, compact and icon the style sheet does not depend on the
    variant. *)
Theorem C4_variant_overrides_on_standard_tier_only (text : string)
    (callback : option Callable) (style_type : string) :
  (style_type ∉ ["large"; "compact"; "icon"] ->
   forall variant bg fg bd,
     (variant, bg, fg, bd)
       ∈ [ ("primary", ACCENT_BLUE, TEXT_WHITE, ACCENT_BLUE);
           ("success", SUCCESS_PRIMARY, TEXT_WHITE, SUCCESS_BORDER);
           ("danger", ERROR_PRIMARY, TEXT_WHITE, ERROR_BORDER) ] ->
     let b := ThemeManager.create_button text callback style_type variant true in
     (exists overrides,
        overrides <> []
        /\ styleSheet b
           = styleSheet (ThemeManager.create_button text callback style_type
                           "default" true) ++ overrides)
     /\ effective b idle "background-color" = Some bg
     /\ effective b idle "color" = Some fg
     /\ effective b idle "border" = Some (AppStyles.solid BORDER_WIDTH_STANDARD bd))
  /\ (style_type ∈ ["large"; "compact"; "icon"] ->
      forall variant variant' e,
        styleSheet (ThemeManager.create_button text callback style_type variant e)
        = styleSheet (ThemeManager.create_button text callback style_type variant' e)).
Proof.
  split.
  - intros Htier variant bg fg bd Hvariant b. subst b.
    rewrite !(create_button_standard_sheet text callback style_type) by done.
    destruct (create_button_fields text callback style_type variant true) as (-> & _).
    destruct (create_button_fields text callback style_type "default" true) as (-> & _).
    split_notin Htier. rewrite !decide_False by done.
    rewrite !elem_of_cons, elem_of_nil in Hvariant.
    destruct Hvariant as [Hv | [Hv | [Hv | []]]]; injection Hv as -> -> -> ->;
      (split; [ eexists; split; [ | unfold AppStyles.button; simpl; reflexivity ];
                discriminate
              | vm_compute; repeat split ]).
  - intros Htier variant variant' e.
    destruct (create_button_fields text callback style_type variant e) as (-> & _).
    destruct (create_button_fields text callback style_type variant' e) as (-> & _).
    rewrite !elem_of_cons, elem_of_nil in Htier.
    by destruct Htier as [-> | [-> | [-> | []]]].
Qed.

Lemma C4_variant_overrides_witness :
  ("standard" ∉ ["large"; "compact"; "icon"])
  /\ ("compact" ∈ ["large"; "compact"; "icon"])
  /\ effective (ThemeManager.create_button "Delete" None "standard" "danger" true)
       idle "background-color" = Some ERROR_PRIMARY
  /\ effective (ThemeManager.create_button "Delete" None "standard" "danger" true)
       idle "border" = Some "1px solid #b4161c"
  /\ styleSheet (ThemeManager.create_button "Delete" None "compact" "danger" true)
     = styleSheet (ThemeManager.create_button "Delete" None "compact" "default" true).
Proof.
  assert (Hstd : "standard" ∉ ["large"; "compact"; "icon"]) by compute_done.
  assert (Hcmp : "compact" ∈ ["large"; "compact"; "icon"]) by compute_done.
  destruct (C4_variant_overrides_on_standard_tier_only "Delete" None "standard")
    as [Hmerge _].
  destruct (C4_variant_overrides_on_standard_tier_only "Delete" None "compact")
    as [_ Hfixed].
  destruct (Hmerge Hstd "danger" ERROR_PRIMARY TEXT_WHITE ERROR_BORDER)
    as (_ & Hbg & _ & Hbd); [ compute_done | ].
  split; [ exact Hstd | ]. split; [ exact Hcmp | ].
  split; [ exact Hbg | ]. split; [ exact Hbd | ].
  exact (Hfixed Hcmp "danger" "default" true).
Defined.

(** User input leaves a disabled button disabled, not held down, and with
    the style sheet it had. *)
Lemma handle_disabled_invariant (events : list UserEvent) :
  forall (b : QPushButton) (i : Interaction),
    enabled b = false -> down b = false ->
    let bi := fold_left handle events (b, i) in
    styleSheet bi.1 = styleSheet b /\ enabled bi.1 = false /\ down bi.1 = false.
Proof.
  induction events as [| e events IH]; intros b i Hen Hdown; [ done | ].
  simpl. destruct e; simpl;
    try first [ by apply IH | rewrite Hen; by apply IH ].
  match goal with
  | |- context [fold_left handle events (?b', _)] => exact (IH b' i Hen eq_refl)
  end.
Qed.




(** The guarantee of C7 rests on the toolkit not reporting [hover] for a
    disabled widget: the hover rule of the primary variant is written after
    the disabled rule and is as specific, so it would win if both applied. *)
Remark primary_hover_rule_is_written_after_disabled_rule :
  cascade (AppStyles.button "primary") "QPushButton" [hover; disabled]
    "background-color" = Some HOT_TRACKING.
Proof. by vm_compute. Qed.

(** The icon tier is different: its disabled rule keeps the background
    transparent. *)
Remark disabled_icon_tier_button_is_transparent :
  effective (ThemeManager.create_button "" None "icon" "primary" false) idle
    "background-color" = Some "transparent".
Proof. by vm_compute. Qed.

(** ** Determinism *)


(** By contrast the scaled icon size does depend on the state of the
    process, through the screen of the running application. *)
Remark scaled_size_depends_on_the_world :
  answer {| application := None; svg_loader := Samples.lenient_load;
            icon_registry := Samples.icons |} (GetScaledSize 20 1)
  <> answer {| application := Samples.hidpi; svg_loader := Samples.lenient_load;
               icon_registry := Samples.icons |} (GetScaledSize 20 1).
Proof. by vm_compute. Qed.

(** ** The definitions on concrete inputs *)

Example str_format_examples :
  str_format "<path fill='{color}'/>" "#000000" = Ok "<path fill='#000000'/>"
  /\ str_format "a{{b}}{color}" "x" = Ok "a{b}x"
  /\ str_format "{colour}" "x" = Raise (KeyError "colour")
  /\ str_format "{}" "x" = Raise IndexError
  /\ str_format "{0}" "x" = Raise IndexError
  /\ str_format "a}" "x" = Raise ValueError
  /\ str_format "{color" "x" = Raise ValueError
  /\ str_format "no placeholder" "x" = Ok "no placeholder".
Proof. vm_compute. repeat split. Qed.

Example str_upper_example : str_upper "refresh_2" = "REFRESH_2".
Proof. reflexivity. Qed.

Example int_and_round_examples :
  int_of_float (63 # 2) = 31 /\ round (63 # 2) = 32
  /\ int_of_float (45 # 2) = 22 /\ round (45 # 2) = 22
  /\ int_of_float (-7 # 4) = -1 /\ round (-7 # 4) = -2.
Proof. vm_compute. repeat split. Qed.

Example scaled_sizes_of_the_tiers :
  map (fun base => IconManager.get_scaled_size Samples.hidpi base 1) [16; 20; 24; 32]
  = [square 28; square 35; square 42; square 56]
  /\ map (fun base => IconManager.get_scaled_size None base 1) [16; 20; 24; 32]
     = [square 16; square 20; square 24; square 32].
Proof. vm_compute. split; reflexivity. Qed.

Example known_icon_button :
  match ThemeManager.create_icon_button None Samples.lenient_load Samples.icons
          "refresh" "Reload" "small" with
  | Ok button =>
      iconSize button = Some (square 16)
      /\ map ie_mode (icon button) = all_modes
      /\ toolTip button = "Reload"
  | Raise _ => False
  end.
Proof. vm_compute. repeat split. Qed.

Example primary_button_enabled :
  effective (ThemeManager.create_button "Save" None "standard" "primary" true)
    idle "background-color" = Some ACCENT_BLUE
  /\ effective (ThemeManager.create_button "Save" None "standard" "primary" true)
       idle "color" = Some TEXT_WHITE
  /\ effective (ThemeManager.create_button "Save" None "standard" "primary" true)
       {| underMouse := true; hasFocus := false |} "background-color"
     = Some HOT_TRACKING.
Proof. vm_compute. repeat split. Qed.

Example notification_success :
  AppStyles.notification "success"
  = Ok [ rule "QLabel" None [
           ("background-color", SUCCESS_BACKGROUND);
           ("color", SUCCESS_PRIMARY);
           ("border", "1px solid #0e5a0e");
           ("border-radius", "2px");
           ("padding", "5px");
           ("font-family", "Segoe UI");
           ("font-size", "9pt") ] ].
Proof. vm_compute. reflexivity. Qed.

(** * Further properties of the code *)

(** ** Python runtime *)

Lemma upper_ascii_idemp (c : ascii) : upper_ascii (upper_ascii c) = upper_ascii c.
Proof. by destruct c as [[] [] [] [] [] [] [] []]. Qed.

Lemma str_upper_idemp (s : string) : str_upper (str_upper s) = str_upper s.
Proof.
  induction s as [| c rest IH]; [ done | ].
  simpl. by rewrite upper_ascii_idemp, IH.
Qed.

(** A string that is not its own upper-casing is the upper-casing of no
    string. *)
Lemma str_upper_misses (key : string) :
  str_upper key <> key -> forall name, str_upper name <> key.
Proof.
  intros Hkey name Hname. apply Hkey.
  by rewrite <- Hname, str_upper_idemp.
Qed.

(** A template without braces formats to itself. *)
Lemma format_scan_brace_free (color : string) (s : string) :
  forallb_string
    (fun c => negb (bool_decide (c = "{"%char) || bool_decide (c = "}"%char))) s
  = true ->
  format_scan s None color = Ok s.
Proof.
  induction s as [| c rest IH]; [ done | ].
  simpl. intros [Hc Hrest]%andb_true_iff.
  apply negb_true_iff, orb_false_iff in Hc as [Hopen Hclose].
  rewrite Hopen, Hclose. by rewrite (IH Hrest).
Qed.

(** The keyword version of [format] with the keyword [color] is the
    [format] of the icon renderer. *)
Lemma format_scan_kw_color (value : string) (n : nat) :
  forall s field, (String.length s <= n)%nat ->
    format_scan_kw "color" s field value = format_scan s field value.
Proof.
  induction n as [| n IH]; intros s field Hlen.
  - destruct s; [ | simpl in Hlen; lia ]. by destruct field.
  - destruct s as [| c rest]; [ by destruct field | ].
    simpl in Hlen.
    assert (Hrest : forall fld, format_scan_kw "color" rest fld value
                                = format_scan rest fld value)
      by (intros; apply IH; lia).
    destruct field as [f |]; cbn [format_scan format_scan_kw].
    + by rewrite !Hrest.
    + destruct rest as [| c' rest']; [ by rewrite ?Hrest | ].
      assert (Hrest' : format_scan_kw "color" rest' None value
                       = format_scan rest' None value)
        by (apply IH; simpl in Hlen; lia).
      by rewrite !Hrest, !Hrest'.
Qed.

Lemma str_format_kw_color (template value : string) :
  str_format_kw "color" template value = str_format template value.
Proof. apply (format_scan_kw_color value (String.length template)). lia. Qed.

(** ** Icon renderer *)

(** X1: whether [create_svg_icon] fails, and with which exception, is
    decided by the template alone: for a template in the modelled fragment
    of [format], two calls that differ in the loader, the requested colour
    and the size both return, or both raise the same exception. *)
Theorem X1_render_failure_depends_on_template_only
    (load1 load2 : string -> bool) (template c1 c2 : string) (s1 s2 : QSize) :
  str_format template c1 <> Raise Unmodelled ->
  same_outcome (IconManager.create_svg_icon load1 template c1 s1)
               (IconManager.create_svg_icon load2 template c2 s2).
Proof.
  intros _.
  pose proof (create_svg_icon_cases load1 template c1 s1) as H1.
  pose proof (create_svg_icon_cases load2 template c2 s2) as H2.
  pose proof (str_format_outcome template c1 c2) as Hsame.
  destruct (IconManager.create_svg_icon load1 template c1 s1) as [i1 | e1],
           (IconManager.create_svg_icon load2 template c2 s2) as [i2 | e2];
    simpl; [ done | | | ].
  - destruct H1 as (? & ? & ? & ? & Hn & _). by rewrite Hn, H2 in Hsame.
  - destruct H2 as (? & ? & ? & ? & Hn & _). by rewrite H1, Hn in Hsame.
  - by rewrite H1, H2 in Hsame.
Qed.

Lemma X1_render_failure_witness :
  str_format "<path fill='{colour}'/>" "#000000" <> Raise Unmodelled
  /\ IconManager.create_svg_icon Samples.lenient_load "<path fill='{colour}'/>"
       "#000000" (square 16) = Raise (KeyError "colour")
  /\ same_outcome
       (IconManager.create_svg_icon Samples.lenient_load "<path fill='{colour}'/>"
          "#000000" (square 16))
       (IconManager.create_svg_icon Samples.strict_load "<path fill='{colour}'/>"
          "red" (square 0)).
Proof.
  assert (H : str_format "<path fill='{colour}'/>" "#000000" <> Raise Unmodelled)
    by (vm_compute; discriminate).
  split; [ exact H | ]. split; [ vm_compute; reflexivity | ].
  exact (X1_render_failure_depends_on_template_only Samples.lenient_load
           Samples.strict_load "<path fill='{colour}'/>" "#000000" "red"
           (square 16) (square 0) H).
Defined.

(** X2: a template without any brace has no placeholder, and rendering it
    does not fail: for a positive size the four states are rendered from
    the template itself, so the four images are the same and the requested
    colour plays no part. *)
Theorem X2_template_without_placeholder_renders_unchanged
    (svg_load : string -> bool) (template color : string) (size : QSize) :
  forallb_string
    (fun c => negb (bool_decide (c = "{"%char) || bool_decide (c = "}"%char)))
    template = true ->
  0 < width size -> 0 < height size ->
  IconManager.create_svg_icon svg_load template color size
  = Ok [ state_entry svg_load template size Normal;
         state_entry svg_load template size Active;
         state_entry svg_load template size Selected;
         state_entry svg_load template size Disabled ].
Proof.
  intros Hfree Hw Hh.
  pose proof (create_svg_icon_cases svg_load template color size) as H.
  unfold str_format in H.
  rewrite !(format_scan_brace_free _ _ Hfree) in H.
  destruct (IconManager.create_svg_icon svg_load template color size)
    as [icon | e]; [ | discriminate ].
  destruct H as (dn & dh & dp & dd & Hn & Hhv & Hp & Hd & ->).
  injection Hn as <-. injection Hhv as <-. injection Hp as <-. injection Hd as <-.
  apply Z.ltb_lt in Hw, Hh. by rewrite Hw, Hh.
Qed.

Lemma X2_template_without_placeholder_witness :
  IconManager.create_svg_icon Samples.lenient_load "<svg><circle r='4'/></svg>"
    "#ff0000" (square 16)
  = Ok [ state_entry Samples.lenient_load "<svg><circle r='4'/></svg>" (square 16) Normal;
         state_entry Samples.lenient_load "<svg><circle r='4'/></svg>" (square 16) Active;
         state_entry Samples.lenient_load "<svg><circle r='4'/></svg>" (square 16) Selected;
         state_entry Samples.lenient_load "<svg><circle r='4'/></svg>" (square 16) Disabled ].
Proof.
  apply (X2_template_without_placeholder_renders_unchanged Samples.lenient_load
           "<svg><circle r='4'/></svg>" "#ff0000" (square 16));
    [ vm_compute; reflexivity | reflexivity | reflexivity ].
Defined.

(** X3: the requested colour reaches the normal state only: two renderings
    of one template at one size with different colours hold the same hover,
    pressed and disabled images. *)
Theorem X3_requested_colour_affects_normal_state_only
    (svg_load : string -> bool) (template c1 c2 : string) (size : QSize)
    (icon1 icon2 : QIcon) :
  IconManager.create_svg_icon svg_load template c1 size = Ok icon1 ->
  IconManager.create_svg_icon svg_load template c2 size = Ok icon2 ->
  filter (fun e => ie_mode e <> Normal) icon1
  = filter (fun e => ie_mode e <> Normal) icon2.
Proof.
  intros H1 H2.
  pose proof (create_svg_icon_cases svg_load template c1 size) as C1.
  pose proof (create_svg_icon_cases svg_load template c2 size) as C2.
  rewrite H1 in C1. rewrite H2 in C2.
  destruct C1 as (dn1 & dh1 & dp1 & dd1 & _ & Hh1 & Hp1 & Hd1 & ->).
  destruct C2 as (dn2 & dh2 & dp2 & dd2 & _ & Hh2 & Hp2 & Hd2 & ->).
  rewrite Hh1 in Hh2. rewrite Hp1 in Hp2. rewrite Hd1 in Hd2.
  injection Hh2 as <-. injection Hp2 as <-. injection Hd2 as <-.
  by destruct ((0 <? width size) && (0 <? height size)).
Qed.

Lemma X3_requested_colour_witness :
  exists icon1 icon2,
    IconManager.create_svg_icon Samples.lenient_load Samples.square_template
      "#ff0000" (square 16) = Ok icon1
    /\ IconManager.create_svg_icon Samples.lenient_load Samples.square_template
         "#00ff00" (square 16) = Ok icon2
    /\ icon1 <> icon2
    /\ filter (fun e => ie_mode e <> Normal) icon1
       = filter (fun e => ie_mode e <> Normal) icon2.
Proof.
  destruct (IconManager.create_svg_icon Samples.lenient_load
              Samples.square_template "#ff0000" (square 16))
    as [icon1 | e] eqn:H1; [ | vm_compute in H1; discriminate ].
  destruct (IconManager.create_svg_icon Samples.lenient_load
              Samples.square_template "#00ff00" (square 16))
    as [icon2 | e] eqn:H2; [ | vm_compute in H2; discriminate ].
  exists icon1, icon2. split; [ reflexivity | ]. split; [ reflexivity | ].
  split.
  - vm_compute in H1, H2. injection H1 as <-. injection H2 as <-. discriminate.
  - exact (X3_requested_colour_affects_normal_state_only Samples.lenient_load
             Samples.square_template "#ff0000" "#00ff00" (square 16)
             icon1 icon2 H1 H2).
Defined.

(** ** Scaled sizes *)








(** ** Icon buttons *)

(** X7: the icon identifier is looked up without regard to ASCII case: the
    request with the upper-cased identifier has the same outcome. *)
Theorem X7_icon_lookup_ignores_case (app : option QApplication)
    (svg_load : string -> bool) (AppIcons : gmap string string)
    (icon_name tooltip size : string) :
  ThemeManager.create_icon_button app svg_load AppIcons icon_name tooltip size
  = ThemeManager.create_icon_button app svg_load AppIcons (str_upper icon_name)
      tooltip size.
Proof. unfold ThemeManager.create_icon_button. by rewrite str_upper_idemp. Qed.

(** X8: a template registered under a name that is not upper case is never
    used: removing it from the registry changes the outcome of no request. *)
Theorem X8_template_under_mixed_case_name_is_unreachable
    (app : option QApplication) (svg_load : string -> bool)
    (AppIcons : gmap string string) (key : string) :
  str_upper key <> key ->
  forall icon_name tooltip size,
    ThemeManager.create_icon_button app svg_load AppIcons icon_name tooltip size
    = ThemeManager.create_icon_button app svg_load (delete key AppIcons)
        icon_name tooltip size.
Proof.
  intros Hkey icon_name tooltip size.
  unfold ThemeManager.create_icon_button, getattr.
  rewrite lookup_delete_ne; [ done | ].
  intros Heq. by apply (str_upper_misses key Hkey icon_name).
Qed.

Lemma X8_unreachable_template_witness :
  str_upper "Close" <> "Close"
  /\ Samples.mixed_case_icons !! "Close" = Some Samples.square_template
  /\ ThemeManager.create_icon_button None Samples.lenient_load
       Samples.mixed_case_icons "Close" "" "medium"
     = ThemeManager.create_icon_button None Samples.lenient_load
         (delete "Close" Samples.mixed_case_icons) "Close" "" "medium".
Proof.
  assert (H : str_upper "Close" <> "Close") by (vm_compute; discriminate).
  split; [ exact H | ]. split; [ vm_compute; reflexivity | ].
  exact (X8_template_under_mixed_case_name_is_unreachable None
           Samples.lenient_load Samples.mixed_case_icons "Close" H
           "Close" "" "medium").
Defined.



(** X10: every icon button that is returned is enabled, has no text, no
    connected callback and the icon-button style sheet, and every bitmap of
    its icon has exactly the icon size set on the button. *)
Theorem X10_icon_bitmaps_have_the_button_icon_size (app : option QApplication)
    (svg_load : string -> bool) (AppIcons : gmap string string)
    (icon_name tooltip size : string) (button : QPushButton) :
  ThemeManager.create_icon_button app svg_load AppIcons icon_name tooltip size
  = Ok button ->
  enabled button = true /\ text button = "" /\ clicked button = []
  /\ styleSheet button = AppStyles.icon_button
  /\ forall e, e ∈ icon button -> iconSize button = Some (pm_size (ie_pixmap e)).
Proof.
  unfold ThemeManager.create_icon_button.
  destruct (truthy (getattr AppIcons (str_upper icon_name))).
  - set (icon_size := IconManager.get_scaled_size app _ 1). clearbody icon_size.
    pose proof (create_svg_icon_cases svg_load
                  (default "" (getattr AppIcons (str_upper icon_name)))
                  ICON_DEFAULT icon_size) as Hcases.
    destruct (IconManager.create_svg_icon svg_load _ ICON_DEFAULT icon_size)
      as [icon | e]; simpl; [ | discriminate ].
    destruct Hcases as (dn & dh & dp & dd & _ & _ & _ & _ & ->).
    intros [= <-].
    destruct ((0 <? width icon_size) && (0 <? height icon_size));
      case_bool_decide; simpl; (repeat (split; [ done | ]));
      intros e He; simpl in He; rewrite ?elem_of_cons in He;
      repeat destruct He as [-> | He]; try done; by apply elem_of_nil in He.
  - simpl. intros [= <-].
    case_bool_decide; simpl; (repeat (split; [ done | ]));
      intros e He; by apply elem_of_nil in He.
Qed.

Lemma X10_icon_bitmaps_witness :
  exists button,
    ThemeManager.create_icon_button Samples.hidpi Samples.lenient_load
      Samples.icons "refresh" "Reload" "large" = Ok button
    /\ iconSize button = Some (square 42)
    /\ forall e, e ∈ icon button -> iconSize button = Some (pm_size (ie_pixmap e)).
Proof.
  destruct (ThemeManager.create_icon_button Samples.hidpi Samples.lenient_load
              Samples.icons "refresh" "Reload" "large")
    as [button | e] eqn:H; [ | vm_compute in H; discriminate ].
  exists button. split; [ reflexivity | ].
  split.
  - vm_compute in H. by injection H as <-.
  - exact (proj2 (proj2 (proj2 (proj2
             (X10_icon_bitmaps_have_the_button_icon_size Samples.hidpi
                Samples.lenient_load Samples.icons "refresh" "Reload" "large"
                button H))))).
Defined.

(** ** Buttons as they are drawn *)

(** Background, text colour and border that a button is drawn with. *)
Ltac button_sheet_cases Hsheet :=
  repeat (let H := fresh "Htier" in
          destruct (decide (_ = _)) as [H | H] in Hsheet);
  try (unfold AppStyles.button in Hsheet;
       repeat (let H := fresh "Hvariant" in
               destruct (decide (_ = _)) as [H | H] in Hsheet)).

(** X11: a disabled button is drawn the same way for every variant, wherever
    the pointer is and whatever the user does: disabled background, disabled
    text colour and disabled border for the tiers standard, large and
    compact; transparent background and border with the disabled icon colour
    for the icon tier. *)
Theorem X11_disabled_look_does_not_depend_on_variant (text : string)
    (callback : option Callable) (style_type variant : string)
    (events : list UserEvent) (start : Interaction) :
  let shown :=
    fold_left handle events
      (ThemeManager.create_button text callback style_type variant false, start) in
  ( effective shown.1 shown.2 "background-color",
    effective shown.1 shown.2 "color",
    effective shown.1 shown.2 "border" )
  = if decide (style_type = "icon")
    then (Some "transparent", Some ICON_DISABLED, Some "1px solid transparent")
    else (Some BACKGROUND_DISABLED, Some TEXT_DISABLED,
          Some (AppStyles.solid BORDER_WIDTH_STANDARD BORDER_DISABLED)).
Proof.
  intros shown.
  destruct (create_button_fields text callback style_type variant false)
    as (Hsheet & Hen & Hdown).
  destruct (handle_disabled_invariant events _ start Hen Hdown)
    as (Hsheet' & Hen' & Hdown').
  fold shown in Hsheet', Hen', Hdown'. rewrite Hsheet in Hsheet'.
  unfold effective, pseudo_states. rewrite Hen', Hdown'. simpl.
  destruct (hasFocus shown.2);
    button_sheet_cases Hsheet'; rewrite Hsheet';
    repeat case_decide; try congruence; by vm_compute.
Qed.

(** X12: hovering is always visible: for every tier and variant, an enabled
    button that is not held down is drawn with another background under the
    pointer than away from it. *)
Theorem X12_hover_changes_the_background (text : string)
    (callback : option Callable) (style_type variant : string) (focused : bool) :
  let b := ThemeManager.create_button text callback style_type variant true in
  effective b {| underMouse := true; hasFocus := focused |} "background-color"
  <> effective b {| underMouse := false; hasFocus := focused |} "background-color".
Proof.
  intros b.
  destruct (create_button_fields text callback style_type variant true)
    as (Hsheet & Hen & Hdown).
  fold b in Hsheet, Hen, Hdown.
  unfold effective, pseudo_states. rewrite Hen, Hdown. simpl.
  destruct focused;
    button_sheet_cases Hsheet; rewrite Hsheet; by vm_compute.
Qed.

(** X13: on the standard tier, a success or danger button that is pressed
    while the pointer is over it is drawn exactly as when it is only hovered:
    the hover rule of the variant is written after the pressed rule of the
    base style and is as specific.  For every other variant the pressed
    background differs from the hovered one. *)
Theorem X13_pressed_look_of_success_and_danger (text : string)
    (callback : option Callable) (style_type variant : string) :
  style_type ∉ ["large"; "compact"; "icon"] ->
  let b := ThemeManager.create_button text callback style_type variant true in
  let hovered := fold_left handle [MouseEnter] (b, idle) in
  let held := fold_left handle [MouseEnter; MousePress] (b, idle) in
  down held.1 = true
  /\ (variant ∈ ["success"; "danger"] ->
      effective held.1 held.2 "background-color"
      = effective hovered.1 hovered.2 "background-color"
      /\ effective held.1 held.2 "color" = effective hovered.1 hovered.2 "color"
      /\ effective held.1 held.2 "border" = effective hovered.1 hovered.2 "border")
  /\ (variant ∉ ["success"; "danger"] ->
      effective held.1 held.2 "background-color"
      <> effective hovered.1 hovered.2 "background-color").
Proof.
  intros Htier b hovered held.
  destruct (create_button_fields text callback style_type variant true)
    as (Hsheet & Hen & Hdown).
  fold b in Hsheet, Hen, Hdown. split_notin Htier.
  rewrite !decide_False in Hsheet by done.
  subst hovered held. simpl. rewrite Hen. simpl.
  split; [ done | ].
  unfold effective, pseudo_states. simpl. rewrite Hsheet, Hen, Hdown. simpl.
  split.
  - intros Hv. rewrite !elem_of_cons, elem_of_nil in Hv.
    destruct Hv as [-> | [-> | []]]; by vm_compute.
  - intros Hv. split_notin Hv. unfold AppStyles.button.
    repeat case_decide; try congruence; by vm_compute.
Qed.

Lemma X13_pressed_look_witness :
  ("standard" ∉ ["large"; "compact"; "icon"])
  /\ ("danger" ∈ ["success"; "danger"])
  /\ ("primary" ∉ ["success"; "danger"])
  /\ effective
       (fold_left handle [MouseEnter; MousePress]
          (ThemeManager.create_button "Delete" None "standard" "danger" true, idle)).1
       (fold_left handle [MouseEnter; MousePress]
          (ThemeManager.create_button "Delete" None "standard" "danger" true, idle)).2
       "background-color" = Some ERROR_BORDER
  /\ effective
       (fold_left handle [MouseEnter; MousePress]
          (ThemeManager.create_button "Save" None "standard" "primary" true, idle)).1
       (fold_left handle [MouseEnter; MousePress]
          (ThemeManager.create_button "Save" None "standard" "primary" true, idle)).2
       "background-color" = Some BORDER_PRESSED.
Proof.
  assert (Ht : "standard" ∉ ["large"; "compact"; "icon"]) by compute_done.
  assert (Hd : "danger" ∈ ["success"; "danger"]) by compute_done.
  assert (Hp : "primary" ∉ ["success"; "danger"]) by compute_done.
  destruct (X13_pressed_look_of_success_and_danger "Delete" None "standard"
              "danger" Ht) as (_ & Hsame & _).
  destruct (X13_pressed_look_of_success_and_danger "Save" None "standard"
              "primary" Ht) as (_ & _ & Hdiff).
  split; [ exact Ht | ]. split; [ exact Hd | ]. split; [ exact Hp | ].
  split.
  - rewrite (proj1 (Hsame Hd)). vm_compute. reflexivity.
  - specialize (Hdiff Hp). vm_compute. reflexivity.
Defined.

(** Appending a rule that does not apply changes no drawn value. *)
Lemma cascade_app_inapplicable (sheet : StyleSheet) (r : Rule) (widget : string)
    (ps : list PseudoState) (prop : string) :
  applies widget ps r = false ->
  cascade (sheet ++ [r]) widget ps prop = cascade sheet widget ps prop.
Proof.
  intros Happ. unfold cascade. rewrite fold_left_app. simpl.
  unfold cascade_step at 1. by rewrite Happ.
Qed.

(** X14: the danger variant of the icon button differs from the plain icon
    button under the pointer only: while the button is hovered its
    background and border are the error colours, also when it is held down;
    in every other state every property is drawn as for the plain icon
    button. *)
Theorem X14_hover_danger_differs_under_pointer_only (b : QPushButton)
    (i : Interaction) :
  styleSheet b = AppStyles.icon_button_hover_danger ->
  (enabled b && underMouse i = true ->
   effective b i "background-color" = Some ERROR_BACKGROUND
   /\ effective b i "border"
      = Some (AppStyles.solid BORDER_WIDTH_STANDARD ERROR_BORDER))
  /\ (enabled b && underMouse i = false ->
      forall prop,
        effective b i prop
        = effective (setStyleSheet b AppStyles.icon_button) i prop).
Proof.
  intros Hsheet. unfold effective, pseudo_states. rewrite Hsheet. simpl.
  split.
  - intros ->. destruct (down b), (hasFocus i), (enabled b); by vm_compute.
  - intros -> prop. unfold AppStyles.icon_button_hover_danger.
    apply cascade_app_inapplicable. unfold applies. simpl.
    apply bool_decide_eq_false.
    destruct (down b), (hasFocus i), (enabled b); compute_done.
Qed.

Lemma X14_hover_danger_witness :
  styleSheet (setStyleSheet (new_QPushButton "") AppStyles.icon_button_hover_danger)
  = AppStyles.icon_button_hover_danger
  /\ effective
       (setStyleSheet (new_QPushButton "") AppStyles.icon_button_hover_danger)
       {| underMouse := true; hasFocus := false |} "background-color"
     = Some ERROR_BACKGROUND
  /\ effective
       (setStyleSheet (new_QPushButton "") AppStyles.icon_button_hover_danger)
       idle "background-color"
     = effective (setStyleSheet (new_QPushButton "") AppStyles.icon_button)
         idle "background-color".
Proof.
  pose (b := setStyleSheet (new_QPushButton "") AppStyles.icon_button_hover_danger).
  assert (H : styleSheet b = AppStyles.icon_button_hover_danger) by reflexivity.
  destruct (X14_hover_danger_differs_under_pointer_only b
              {| underMouse := true; hasFocus := false |} H) as [Hover _].
  destruct (X14_hover_danger_differs_under_pointer_only b idle H) as [_ Hidle].
  split; [ exact H | ].
  split; [ exact (proj1 (Hover eq_refl)) | exact (Hidle eq_refl "background-color") ].
Defined.

(** ** Labels, separators and text edits *)

Lemma port_type_indicator_unknown_type (style_type : string) :
  style_type ∉ ["success"; "warning"; "error"; "info"] ->
  AppStyles.port_type_indicator style_type = AppStyles.port_type_indicator "info".
Proof.
  intros H. unfold AppStyles.port_type_indicator.
  by rewrite !(get_semantic_color_unknown_category style_type) by done.
Qed.

(** X15: the notification style and the port type indicator style show the
    colours of the semantic colour resolver: for every type string, known or
    not, both style sheets are produced, and the background, text colour and
    border they declare for the label are the resolver's background,
    primary and border colour of that type. *)
Theorem X15_label_styles_agree_with_semantic_colours (type : string) :
  exists bg bd fg note indicator,
    ThemeManagerColors.get_semantic_color type "background" = Ok bg
    /\ ThemeManagerColors.get_semantic_color type "border" = Ok bd
    /\ ThemeManagerColors.get_semantic_color type "primary" = Ok fg
    /\ AppStyles.notification type = Ok note
    /\ AppStyles.port_type_indicator type = Ok indicator
    /\ cascade note "QLabel" [] "background-color" = Some bg
    /\ cascade note "QLabel" [] "color" = Some fg
    /\ cascade note "QLabel" [] "border"
       = Some (AppStyles.solid BORDER_WIDTH_STANDARD bd)
    /\ cascade indicator "QLabel" [] "background-color" = Some bg
    /\ cascade indicator "QLabel" [] "color" = Some fg
    /\ cascade indicator "QLabel" [] "border"
       = Some (AppStyles.solid BORDER_WIDTH_STANDARD bd).
Proof.
  destruct (decide (type ∈ ["success"; "warning"; "error"; "info"])) as [Hin | Hout].
  - rewrite !elem_of_cons, elem_of_nil in Hin.
    destruct Hin as [-> | [-> | [-> | [-> | []]]]];
      eexists _, _, _, _, _; repeat split; vm_compute; reflexivity.
  - rewrite !(get_semantic_color_unknown_category type) by done.
    rewrite (notification_unknown_type type Hout).
    rewrite (port_type_indicator_unknown_type type Hout).
    eexists _, _, _, _, _; repeat split; vm_compute; reflexivity.
Qed.

(** X16: the label factories never fail and fall back: a notification label
    keeps its text, carries the notification style of its type and is the
    info label for an unrecognised type; a label of a style type other than
    ["status"] is the standard label. *)
Theorem X16_labels_fall_back (text type : string) :
  (exists label sheet,
     ThemeManager.create_notification_label text type = Ok label
     /\ AppStyles.notification type = Ok sheet
     /\ lb_text label = text
     /\ lb_styleSheet label = sheet
     /\ lb_fixedWidth label = None)
  /\ (type ∉ ["success"; "warning"; "error"; "info"] ->
      ThemeManager.create_notification_label text type
      = ThemeManager.create_notification_label text "info")
  /\ lb_text (ThemeManager.create_label text type) = text
  /\ (type <> "status" ->
      ThemeManager.create_label text type
      = ThemeManager.create_label text "standard").
Proof.
  split; [ | split; [ | split ] ].
  - unfold ThemeManager.create_notification_label.
    destruct (notification_returns type) as [sheet ->]. simpl.
    by eexists _, _.
  - intros H. unfold ThemeManager.create_notification_label.
    by rewrite (notification_unknown_type type H).
  - done.
  - intros H. unfold ThemeManager.create_label, dict_get. f_equal.
    destruct (decide (type = "standard")) as [-> | Hstd]; [ done | ].
    rewrite lookup_insert_ne by done. by rewrite lookup_singleton_ne by done.
Qed.

Lemma X16_labels_witness :
  ("bogus" ∉ ["success"; "warning"; "error"; "info"])
  /\ "bogus" <> "status"
  /\ ThemeManager.create_notification_label "Saved" "bogus"
     = ThemeManager.create_notification_label "Saved" "info"
  /\ ThemeManager.create_label "Saved" "bogus"
     = ThemeManager.create_label "Saved" "standard".
Proof.
  assert (H1 : "bogus" ∉ ["success"; "warning"; "error"; "info"]) by compute_done.
  assert (H2 : "bogus" <> "status") by discriminate.
  destruct (X16_labels_fall_back "Saved" "bogus") as (_ & Hnote & _ & Hlabel).
  split; [ exact H1 | ]. split; [ exact H2 | ].
  split; [ exact (Hnote H1) | exact (Hlabel H2) ].
Defined.

(** X17: the frame shape and the style of a separator always agree, since
    both follow from the same test: a horizontal line with the horizontal
    style (which bounds the height) for the orientation ["horizontal"], a
    vertical line with the vertical style (which bounds the width) for
    every other string; the shadow is sunken and the parent is kept. *)
Theorem X17_separator_shape_and_style_agree (orientation : string)
    (parent : option nat) :
  let f := ThemeManager.create_separator orientation parent in
  fr_shadow f = Sunken /\ fr_parent f = parent
  /\ (fr_shape f = HLine <-> orientation = "horizontal")
  /\ (fr_shape f = VLine <-> orientation <> "horizontal")
  /\ (fr_shape f = HLine <->
      cascade (fr_styleSheet f) "QFrame" [] "max-height" <> None)
  /\ (fr_shape f = VLine <->
      cascade (fr_styleSheet f) "QFrame" [] "max-width" <> None).
Proof.
  unfold ThemeManager.create_separator, AppStyles.separator.
  destruct (decide (orientation = "horizontal")) as [Hh | Hv]; simpl;
    repeat split; try done; try (by vm_compute).
Qed.

Lemma X17_separator_witness :
  fr_shape (ThemeManager.create_separator "horizontal" None) = HLine
  /\ fr_shape (ThemeManager.create_separator "diagonal" (Some 4%nat)) = VLine.
Proof.
  destruct (X17_separator_shape_and_style_agree "horizontal" None)
    as (_ & _ & Hh & _).
  destruct (X17_separator_shape_and_style_agree "diagonal" (Some 4%nat))
    as (_ & _ & _ & Hv & _).
  split; [ apply Hh; reflexivity | apply Hv; discriminate ].
Defined.

(** X18: a text edit always carries the text-edit style sheet, which
    declares the default family Segoe UI as font family in every state of
    the widget; the font given to the widget is Consolas, 9 or 10 points,
    for the font types console and console_large, and is not set for any
    other string. *)
Theorem X18_textedit_font_and_style (font_type : string) (ps : list PseudoState) :
  let e := ThemeManager.create_textedit font_type in
  te_styleSheet e = AppStyles.textedit
  /\ cascade (te_styleSheet e) "QTextEdit" ps "font-family"
     = Some AppFonts.DEFAULT_FAMILY
  /\ (font_type = "console" ->
      te_font e = Some {| AppFonts.family := "Consolas"; AppFonts.pointSize := 9 |})
  /\ (font_type = "console_large" ->
      te_font e = Some {| AppFonts.family := "Consolas"; AppFonts.pointSize := 10 |})
  /\ (font_type ∉ ["console"; "console_large"] -> te_font e = None).
Proof.
  intros e.
  assert (Hsheet : te_styleSheet e = AppStyles.textedit).
  { unfold e, ThemeManager.create_textedit. by repeat case_decide. }
  split; [ exact Hsheet | ]. split.
  - rewrite Hsheet. unfold cascade, AppStyles.textedit. simpl.
    unfold cascade_step, applies. simpl.
    by destruct (bool_decide (focus ∈ ps)), (bool_decide (disabled ∈ ps)).
  - unfold e, ThemeManager.create_textedit.
    split; [ by intros -> | ]. split; [ by intros -> | ].
    intros H. split_notin H. by rewrite !decide_False by done.
Qed.

Lemma X18_textedit_witness :
  "console" = "console"
  /\ ("log" ∉ ["console"; "console_large"])
  /\ te_font (ThemeManager.create_textedit "console")
     = Some {| AppFonts.family := "Consolas"; AppFonts.pointSize := 9 |}
  /\ te_font (ThemeManager.create_textedit "log") = None.
Proof.
  assert (H : "log" ∉ ["console"; "console_large"]) by compute_done.
  destruct (X18_textedit_font_and_style "console" []) as (_ & _ & Hc & _).
  destruct (X18_textedit_font_and_style "log" []) as (_ & _ & _ & _ & Hn).
  split; [ reflexivity | ]. split; [ exact H | ].
  split; [ exact (Hc eq_refl) | exact (Hn H) ].
Defined.

(** ** Port labels and the route mode button *)

Lemma append_colon_inj (s1 s2 : string) : s1 +:+ ":" = s2 +:+ ":" -> s1 = s2.
Proof.
  revert s2. induction s1 as [| c1 s1 IH]; intros [| c2 s2]; simpl; intros H.
  - done.
  - injection H as _ H. by destruct s2.
  - injection H as _ H. by destruct s1.
  - injection H as -> H. by rewrite (IH s2 H).
Qed.

Lemma port_label_text (value : string) :
  str_format_kw "number" AppMessages.BUTTON_PORT_LABEL value
  = Ok ("Port " +:+ value +:+ ":").
Proof. reflexivity. Qed.

Lemma route_mode_text (value : string) :
  str_format_kw "mode" AppMessages.BUTTON_ROUTE_MODE value
  = Ok ("Route Mode: " +:+ value +:+ " ▼").
Proof. reflexivity. Qed.

(** X19: a port label is created for every port number, negative ones
    included; its text is "Port n:" with n in decimal, its width is fixed to
    55, and two different port numbers get different labels. *)
Theorem X19_port_labels_are_distinct (number : Z) :
  (exists label,
     ThemeManager.create_port_label number = Ok label
     /\ lb_text label = "Port " +:+ pretty number +:+ ":"
     /\ lb_fixedWidth label = Some 55
     /\ lb_styleSheet label = AppStyles.port_label)
  /\ forall other,
       number <> other ->
       ThemeManager.create_port_label number <> ThemeManager.create_port_label other.
Proof.
  unfold ThemeManager.create_port_label. split.
  - rewrite port_label_text. simpl. by eexists.
  - intros other Hne. rewrite !port_label_text. simpl. intros [= H].
    apply append_colon_inj in H. by apply (inj pretty) in H.
Qed.

Lemma X19_port_labels_witness :
  3 <> 13
  /\ ThemeManager.create_port_label 3 <> ThemeManager.create_port_label 13
  /\ exists label,
       ThemeManager.create_port_label 13 = Ok label /\ lb_text label = "Port 13:".
Proof.
  assert (H : 3 <> 13) by discriminate.
  split; [ exact H | ].
  split; [ exact (proj2 (X19_port_labels_are_distinct 3) 13 H) | ].
  destruct (proj1 (X19_port_labels_are_distinct 13)) as (label & Hl & Ht & _).
  exists label. split; [ exact Hl | exact Ht ].
Defined.

(** X20: the route mode button is created for every mode string; its text
    is "Route Mode: M ▼" where M is One-Way, Two-Way or Full Network, and
    One-Way for an unrecognised mode; it is an enabled standard button of
    the default variant with a fixed tooltip, connected to the callback
    when one is given. *)
Theorem X20_route_mode_button (initial_mode : string) (callback : option Callable) :
  (exists button,
     ThemeManager.create_route_mode_button initial_mode callback = Ok button
     /\ text button ∈ [ "Route Mode: One-Way ▼"; "Route Mode: Two-Way ▼";
                        "Route Mode: Full Network ▼" ]
     /\ enabled button = true
     /\ styleSheet button = AppStyles.button "default"
     /\ toolTip button = "Configure data routing between ports"
     /\ clicked button = match callback with Some c => [c] | None => [] end)
  /\ (initial_mode ∉ ["one_way"; "two_way"; "full_network"] ->
      ThemeManager.create_route_mode_button initial_mode callback
      = ThemeManager.create_route_mode_button "one_way" callback).
Proof.
  unfold ThemeManager.create_route_mode_button.
  assert (Hmode : dict_get ThemeManager.mode_names initial_mode "One-Way"
                  ∈ ["One-Way"; "Two-Way"; "Full Network"]
                  /\ (initial_mode ∉ ["one_way"; "two_way"; "full_network"] ->
                      dict_get ThemeManager.mode_names initial_mode "One-Way"
                      = "One-Way")).
  { unfold dict_get, ThemeManager.mode_names.
    rewrite !lookup_insert, lookup_singleton.
    repeat case_decide; simpl; (split; [ compute_done | ]); try done;
      intros Hunknown; split_notin Hunknown; congruence. }
  destruct Hmode as [Hin Hunknown]. split.
  - rewrite route_mode_text. simpl. eexists. split; [ reflexivity | ].
    split.
    + rewrite !elem_of_cons, elem_of_nil in Hin.
      destruct Hin as [-> | [-> | [-> | []]]]; destruct callback; compute_done.
    + by destruct callback.
  - intros H. by rewrite (Hunknown H).
Qed.

Lemma X20_route_mode_witness :
  ("broadcast" ∉ ["one_way"; "two_way"; "full_network"])
  /\ ThemeManager.create_route_mode_button "broadcast" (Some 7%nat)
     = ThemeManager.create_route_mode_button "one_way" (Some 7%nat).
Proof.
  assert (H : "broadcast" ∉ ["one_way"; "two_way"; "full_network"]) by compute_done.
  split; [ exact H | ].
  exact (proj2 (X20_route_mode_button "broadcast" (Some 7%nat)) H).
Defined.

(** ** Margins, dialogs and accent colours *)

(** X21: [set_widget_margins] leaves an object without the method
    [setContentsMargins] as it is; on any other it sets four equal margins
    of 11, 7, 4 or 0 pixels, and 11, the dialog margins, for every margin
    type other than control, small and none. *)
Theorem X21_widget_margins_are_uniform (widget : MarginHolder)
    (margin_type : string) :
  let after := ThemeManager.set_widget_margins widget margin_type in
  (has_setContentsMargins widget = false -> after = widget)
  /\ (has_setContentsMargins widget = true ->
      exists m, contentsMargins after = (m, m, m, m)
        /\ m ∈ [11; 7; 4; 0]
        /\ (margin_type ∉ ["control"; "small"; "none"] -> m = 11)).
Proof.
  unfold ThemeManager.set_widget_margins. simpl. split; intros ->; [ done | ].
  simpl. unfold dict_get, ThemeManager.margin_map.
  rewrite !lookup_insert, lookup_singleton.
  repeat case_decide; simpl; eexists; (split; [ reflexivity | ]);
    (split; [ compute_done | ]); try done;
    intros Hunknown; split_notin Hunknown; congruence.
Qed.

Lemma X21_widget_margins_witness :
  has_setContentsMargins
    {| has_setContentsMargins := true; contentsMargins := (1, 2, 3, 4) |} = true
  /\ ("wide" ∉ ["control"; "small"; "none"])
  /\ contentsMargins
       (ThemeManager.set_widget_margins
          {| has_setContentsMargins := true; contentsMargins := (1, 2, 3, 4) |}
          "wide") = (11, 11, 11, 11).
Proof.
  pose (w := {| has_setContentsMargins := true; contentsMargins := (1, 2, 3, 4) |}).
  assert (H : "wide" ∉ ["control"; "small"; "none"]) by compute_done.
  destruct (X21_widget_margins_are_uniform w "wide") as [_ Hset].
  destruct (Hset eq_refl) as (m & Hm & _ & Hdialog).
  split; [ reflexivity | ]. split; [ exact H | ].
  fold w. rewrite Hm. by rewrite (Hdialog H).
Defined.

(** X22: the size that [create_dialog_window] passes to [setMinimumSize]
    never has a zero dimension: a width or height that is absent or 0 is
    replaced by the default, 500 or 300, and every other value, negative
    ones included, is passed on as it is. *)
Theorem X22_dialog_minimum_size (title : string) (w h : option Z) :
  let dialog := ThemeManager.create_dialog_window title w h in
  dlg_windowTitle dialog = title
  /\ exists size,
       dlg_minimumSize dialog = Some size
       /\ width size <> 0 /\ height size <> 0
       /\ (truthy_int w = false -> width size = 500)
       /\ (truthy_int h = false -> height size = 300)
       /\ (forall v, w = Some v -> v <> 0 -> width size = v)
       /\ (forall v, h = Some v -> v <> 0 -> height size = v).
Proof.
  unfold ThemeManager.create_dialog_window. simpl. split; [ done | ].
  eexists. split; [ reflexivity | ]. simpl.
  unfold or_int, truthy_int, MIN_DIALOG_WIDTH, MIN_DIALOG_HEIGHT.
  destruct w as [vw |], h as [vh |];
    repeat match goal with
           | |- context [?v =? 0] => destruct (Z.eqb_spec v 0)
           end;
    simpl; repeat split; try done; try lia;
    intros ? [= <-] ?; done.
Qed.

Lemma X22_dialog_minimum_size_witness :
  truthy_int (Some 0) = false
  /\ dlg_minimumSize (ThemeManager.create_dialog_window "Ports" (Some 0) (Some (-5)))
     = Some {| width := 500; height := -5 |}.
Proof.
  destruct (X22_dialog_minimum_size "Ports" (Some 0) (Some (-5)))
    as (_ & size & Hsize & _ & _ & Hw & _ & _ & Hh).
  split; [ reflexivity | ].
  rewrite Hsize. destruct size as [sw sh]. simpl in *.
  by rewrite (Hw eq_refl), (Hh (-5) eq_refl) by discriminate.
Defined.

(** X23: [get_accent_color] answers every string with a colour written
    [#rrggbb], whose components lie between 0 and 255, and with the accent
    blue (0, 120, 215) for a string that names no accent colour. *)
Theorem X23_accent_colour_is_always_valid (color_type : string) :
  exists r g b,
    rgb (ThemeManager.get_accent_color color_type) = Some (r, g, b)
    /\ 0 <= r <= 255 /\ 0 <= g <= 255 /\ 0 <= b <= 255
    /\ (color_type ∉ [ "blue"; "green"; "orange"; "red"; "purple"; "magenta";
                       "yellow"; "teal"; "pair_highlight"; "pair_info" ] ->
        (r, g, b) = (0, 120, 215)).
Proof.
  unfold ThemeManager.get_accent_color, dict_get, ThemeManager.accent_colors.
  rewrite !lookup_insert, lookup_singleton.
  repeat case_decide; simpl; eexists _, _, _;
    (split; [ vm_compute; reflexivity | ]);
    (repeat (split; [ lia | ])); try done;
    intros Hunknown; split_notin Hunknown; congruence.
Qed.

Lemma X23_accent_colour_witness :
  ("pink" ∉ [ "blue"; "green"; "orange"; "red"; "purple"; "magenta";
              "yellow"; "teal"; "pair_highlight"; "pair_info" ])
  /\ rgb (ThemeManager.get_accent_color "pink") = Some (0, 120, 215).
Proof.
  assert (H : "pink" ∉ [ "blue"; "green"; "orange"; "red"; "purple"; "magenta";
                         "yellow"; "teal"; "pair_highlight"; "pair_info" ])
    by compute_done.
  destruct (X23_accent_colour_is_always_valid "pink")
    as (r & g & b & Hrgb & _ & _ & _ & Hblue).
  split; [ exact H | ]. rewrite Hrgb. by rewrite (Hblue H).
Defined.

(** ** More on colours and focus *)

(** X24: the semantic colour resolver tells the four categories apart: two
    different recognised categories never resolve to the same colour for
    the same recognised element. *)
Theorem X24_semantic_categories_are_distinguishable (c1 c2 element : string) :
  c1 ∈ ["success"; "warning"; "error"; "info"] ->
  c2 ∈ ["success"; "warning"; "error"; "info"] ->
  element ∈ ["primary"; "background"; "border"] ->
  c1 <> c2 ->
  ThemeManagerColors.get_semantic_color c1 element
  <> ThemeManagerColors.get_semantic_color c2 element.
Proof.
  intros H1 H2 He Hne.
  rewrite !elem_of_cons, elem_of_nil in H1.
  rewrite !elem_of_cons, elem_of_nil in H2.
  rewrite !elem_of_cons, elem_of_nil in He.
  destruct H1 as [-> | [-> | [-> | [-> | []]]]];
    destruct H2 as [-> | [-> | [-> | [-> | []]]]];
    try done;
    destruct He as [-> | [-> | [-> | []]]]; by vm_compute.
Qed.

Lemma X24_semantic_categories_witness :
  ("error" ∈ ["success"; "warning"; "error"; "info"])
  /\ ("warning" ∈ ["success"; "warning"; "error"; "info"])
  /\ ("border" ∈ ["primary"; "background"; "border"])
  /\ "error" <> "warning"
  /\ ThemeManagerColors.get_semantic_color "error" "border"
     <> ThemeManagerColors.get_semantic_color "warning" "border".
Proof.
  assert (H1 : "error" ∈ ["success"; "warning"; "error"; "info"]) by compute_done.
  assert (H2 : "warning" ∈ ["success"; "warning"; "error"; "info"]) by compute_done.
  assert (H3 : "border" ∈ ["primary"; "background"; "border"]) by compute_done.
  assert (H4 : "error" <> "warning") by discriminate.
  split; [ exact H1 | ]. split; [ exact H2 | ]. split; [ exact H3 | ].
  split; [ exact H4 | ].
  exact (X24_semantic_categories_are_distinguishable "error" "warning" "border"
           H1 H2 H3 H4).
Defined.

(** X25: keyboard focus is always drawn: in every tier and variant, an
    enabled button that has the focus and is neither under the pointer nor
    held down has a border of the focus colour, thick for the tiers
    standard, large and compact and standard for the icon tier. *)
Theorem X25_focus_border_is_drawn (text : string) (callback : option Callable)
    (style_type variant : string) :
  effective (ThemeManager.create_button text callback style_type variant true)
    {| underMouse := false; hasFocus := true |} "border"
  = Some (AppStyles.solid
            (if decide (style_type = "icon") then BORDER_WIDTH_STANDARD
             else BORDER_WIDTH_THICK)
            BORDER_FOCUS).
Proof.
  destruct (create_button_fields text callback style_type variant true)
    as (Hsheet & Hen & Hdown).
  unfold effective, pseudo_states. rewrite Hen, Hdown. simpl.
  button_sheet_cases Hsheet; rewrite Hsheet;
    repeat case_decide; try congruence; by vm_compute.
Qed.
